(** * A game automation bot: perception, policy, actuation and main loop

    A shallow embedding of the decision loop of the bot:
    - [src/detector/yolo_detector.py]: detections and the detector,
    - [src/strategy/base_strategy.py]: game states, the cooldown-gated
      [update] entry point and the reference policy [SimpleStrategy],
    - [src/controller/game_controller.py]: taps, randomized taps and the
      smooth swipe,
    - [main.py]: the orchestrator's frame loop.

    Conventions of the embedding.  Python integers are [Z].  Python floats
    (timestamps, durations, confidences, Bezier coordinates) are idealised as
    exact rationals [Q].  Dictionaries whose iteration order matters are
    association lists; the parameter dictionary of a decision is a
    [gmap string Z].  The clock, the random number generator, the frame
    source, the detection model and the input driver are external: they are
    oracles stored in a [World], and every call to one of them is recorded in
    the world's trace. *)

From Stdlib Require Import ZArith QArith String Ascii List Sorted Bool Lia.
From stdpp Require Import base option gmap strings list.
Import ListNotations.

Local Open Scope string_scope.
Local Open Scope Z_scope.

(** ** Rationals: the comparisons the code performs on floats *)

Definition Qltb (a b : Q) : bool := negb (Qle_bool b a).

(** Python's [int(x)] on a float: truncation towards zero. *)
Definition py_int (x : Q) : Z := Z.quot (Qnum x) (Zpos (Qden x)).

(** ** Detections ([yolo_detector.py], class [Detection]) *)

Record Detection := mkDetection {
  class_id : Z;
  class_name : string;
  confidence : Q;
  bbox : Z * Z * Z * Z;        (* (x1, y1, x2, y2) *)
  center : Z * Z               (* (cx, cy) *)
}.

(** ** Game states and decisions ([base_strategy.py]) *)

Inductive GameState :=
  | IDLE | MENU | BATTLE | LOADING | REWARD | DIALOGUE | UNKNOWN.

Definition GameState_value (s : GameState) : string :=
  match s with
  | IDLE => "idle" | MENU => "menu" | BATTLE => "battle"
  | LOADING => "loading" | REWARD => "reward" | DIALOGUE => "dialogue"
  | UNKNOWN => "unknown"
  end.

(** A decision is the dictionary [{"action": ..., "params": {...}}].  Either
    key may be absent from a dictionary, which is what [dict.get] observes. *)
Record Decision := mkDecision {
  d_action : option string;
  d_params : option (gmap string Z)
}.

(** Truth value of a dictionary: it is true when it has at least one key. *)
Definition decision_truthy (d : Decision) : bool :=
  match d_action d, d_params d with
  | None, None => false
  | _, _ => true
  end.

Definition wait_decision : Decision :=
  mkDecision (Some "wait") (Some ∅).

Definition tap_decision (cx cy : Z) : Decision :=
  mkDecision (Some "tap") (Some (<["y" := cy]> (<["x" := cx]> ∅))).

(** ** The policy ([base_strategy.py], [BaseStrategy] and [SimpleStrategy]) *)

(** The instance attributes of a [SimpleStrategy] object: those set by
    [BaseStrategy.__init__] and the indicator table, whose iteration order is
    the insertion order of the dictionary literal. *)
Record SimpleStrategy := mkSimpleStrategy {
  name : string;
  current_state : GameState;
  frame_count : Z;
  last_action_time : Q;
  action_cooldown : Q;
  state_indicators : list (GameState * list string)
}.

Definition SimpleStrategy_init : SimpleStrategy := {|
  name := "SimpleStrategy";
  current_state := UNKNOWN;
  frame_count := 0;
  last_action_time := 0;
  action_cooldown := 1 # 2;
  state_indicators :=
    [ (MENU, ["start_button"; "menu_bg"]);
      (BATTLE, ["enemy"; "hp_bar"; "skill_button"]);
      (REWARD, ["reward_icon"; "claim_button"]);
      (LOADING, ["loading_icon"]) ]
|}.

Definition set_frame_count (n : Z) (self : SimpleStrategy) : SimpleStrategy :=
  mkSimpleStrategy (name self) (current_state self) n
    (last_action_time self) (action_cooldown self) (state_indicators self).

Definition set_current_state (s : GameState) (self : SimpleStrategy) : SimpleStrategy :=
  mkSimpleStrategy (name self) s (frame_count self)
    (last_action_time self) (action_cooldown self) (state_indicators self).

Definition set_last_action_time (t : Q) (self : SimpleStrategy) : SimpleStrategy :=
  mkSimpleStrategy (name self) (current_state self) (frame_count self)
    t (action_cooldown self) (state_indicators self).

Definition set_action_cooldown (c : Q) (self : SimpleStrategy) : SimpleStrategy :=
  mkSimpleStrategy (name self) (current_state self) (frame_count self)
    (last_action_time self) c (state_indicators self).

(** [get_detections_by_class]: the list comprehension keeps the order. *)
Definition get_detections_by_class (detections : list Detection) (cls : string)
  : list Detection :=
  List.filter (fun det => String.eqb (class_name det) cls) detections.

(** [has_detection]: [any(det.class_name == class_name for det in detections)]. *)
Definition has_detection (detections : list Detection) (cls : string) : bool :=
  existsb (fun det => String.eqb (class_name det) cls) detections.

(** The inner loop of [analyze_state]: does some indicator of the list have
    a detection, i.e. does the loop reach its [return state]? *)
Fixpoint scan_indicators (detections : list Detection) (indicators : list string)
  : bool :=
  match indicators with
  | [] => false
  | indicator :: rest =>
      if has_detection detections indicator then true
      else scan_indicators detections rest
  end.

(** The outer loop over [self.state_indicators.items()]. *)
Fixpoint scan_states (detections : list Detection)
    (items : list (GameState * list string)) : GameState :=
  match items with
  | [] => UNKNOWN
  | (state, indicators) :: rest =>
      if scan_indicators detections indicators then state
      else scan_states detections rest
  end.

Definition analyze_state {F : Type} (self : SimpleStrategy) (frame : F)
    (detections : list Detection) : GameState :=
  scan_states detections (state_indicators self).

(** The three handlers share one shape: tap the centre of the first
    detection of a class, if there is one. *)
Definition _handle_menu (detections : list Detection) : Decision :=
  match get_detections_by_class detections "start_button" with
  | button :: _ => let '(cx, cy) := center button in tap_decision cx cy
  | [] => wait_decision
  end.

Definition _handle_battle (detections : list Detection) : Decision :=
  match get_detections_by_class detections "enemy" with
  | enemy :: _ => let '(cx, cy) := center enemy in tap_decision cx cy
  | [] =>
      match get_detections_by_class detections "skill_button" with
      | skill :: _ => let '(cx, cy) := center skill in tap_decision cx cy
      | [] => wait_decision
      end
  end.

Definition _handle_reward (detections : list Detection) : Decision :=
  match get_detections_by_class detections "claim_button" with
  | button :: _ => let '(cx, cy) := center button in tap_decision cx cy
  | [] => wait_decision
  end.

Definition make_decision {F : Type} (self : SimpleStrategy) (frame : F)
    (detections : list Detection) (state : GameState) : Decision :=
  match state with
  | MENU => _handle_menu detections
  | BATTLE => _handle_battle detections
  | REWARD => _handle_reward detections
  | LOADING => wait_decision
  | _ => wait_decision
  end.

(** [BaseStrategy.update], as inherited by [SimpleStrategy].  The reading of
    the clock, [time.time()], is the argument [current_time]. *)
Definition update {F : Type} (self : SimpleStrategy) (current_time : Q)
    (frame : F) (detections : list Detection)
  : option Decision * SimpleStrategy :=
  let self := set_frame_count (frame_count self + 1) self in
  let self := set_current_state (analyze_state self frame detections) self in
  if Qltb (current_time - last_action_time self) (action_cooldown self)
  then (None, self)
  else
    let decision := make_decision self frame detections (current_state self) in
    let self :=
      if decision_truthy decision
      then set_last_action_time current_time self
      else self in
    (Some decision, self).

(** ** The outside world

    Everything the program does not own is an oracle: the clock, the random
    number generator, the frame source, the file system, the model loaders,
    the detection model and the input driver.  Streams are functions from a
    position, and the world remembers how far each one has been read. *)

Inductive Exn :=
  | ValueError | FileNotFoundError | RuntimeError | NotImplementedError
  | ImportError | ZeroDivisionError | IndexError | DriverError.

Definition Frame : Type := list (list (Z * Z * Z)).

(** One box of the model's raw output: [box.cls], [box.conf], [box.xyxy[0]]. *)
Record Box := mkBox {
  box_cls : Q;
  box_conf : Q;
  box_xyxy : Q * Q * Q * Q
}.

(** A loaded model; [model_names] is [list(model.names.values())]. *)
Record Model := mkModel { model_names : list string }.

Inductive DeviceCall :=
  | DevClick (x y : Z)
  | DevSwipe (x1 y1 x2 y2 : Z) (duration : Q)
  | DevLongClick (x y : Z) (duration : Q)
  | DevPress (x y : Z) (duration : Q).

Inductive Message :=
  | MsgFrameFetchFailed                         (* run: the frame is None *)
  | MsgUnknownAction (action : option string)   (* _execute_action: else branch *)
  | MsgTapExecuted (x y : Z)
  | MsgSwipeExecuted (x1 y1 x2 y2 : Z)
  | MsgFrameStats (frames : Z) (fps : Q) (detections : nat) (state : string)
  | MsgTapFailed (x y : Z) (e : Exn)
  | MsgSwipeFailed (e : Exn)
  | MsgLongPressFailed (e : Exn)
  | MsgSmoothSwipeFailed (e : Exn)
  | MsgLoadingModel (path : string)
  | MsgModelLoaded (classes : list string).

Inductive Level := DEBUG | INFO | WARNING | ERROR.

Inductive Event :=
  | EvDevice (call : DeviceCall)      (* a call of the input driver *)
  | EvSleep (seconds : Q)             (* time.sleep *)
  | EvPrint (m : Message)             (* print *)
  | EvLog (lvl : Level) (m : Message) (* self.logger.<lvl> *)
  | EvInfer (frame : Frame)           (* a call of the detection model *)
  | EvImshow                          (* cv2.imshow and cv2.waitKey *)
  | EvImwrite (frames : Z).           (* cv2.imwrite of a screenshot *)

Record World := mkWorld {
  clock : nat -> Q;                 (* successive readings of time.time() *)
  clock_pos : nat;
  rng : nat -> Z;                   (* raw entropy behind random.randint *)
  rng_pos : nat;
  frames : nat -> option Frame;     (* successive results of get_frame() *)
  frame_pos : nat;
  fs_exists : string -> bool;       (* Path.exists() *)
  load_ultralytics : string -> Exn + Model;
  load_onnx : string -> Exn + Model;
  infer : Frame -> list Box;        (* the detection model *)
  driver_fails : DeviceCall -> bool;
  trace : list Event                (* oldest first *)
}.

Definition emit (e : Event) (w : World) : World :=
  mkWorld (clock w) (clock_pos w) (rng w) (rng_pos w) (frames w) (frame_pos w)
    (fs_exists w) (load_ultralytics w) (load_onnx w) (infer w) (driver_fails w)
    (trace w ++ [e]).

Definition advance_clock (w : World) : World :=
  mkWorld (clock w) (S (clock_pos w)) (rng w) (rng_pos w) (frames w) (frame_pos w)
    (fs_exists w) (load_ultralytics w) (load_onnx w) (infer w) (driver_fails w)
    (trace w).

Definition advance_rng (w : World) : World :=
  mkWorld (clock w) (clock_pos w) (rng w) (S (rng_pos w)) (frames w) (frame_pos w)
    (fs_exists w) (load_ultralytics w) (load_onnx w) (infer w) (driver_fails w)
    (trace w).

Definition advance_frames (w : World) : World :=
  mkWorld (clock w) (clock_pos w) (rng w) (rng_pos w) (frames w) (S (frame_pos w))
    (fs_exists w) (load_ultralytics w) (load_onnx w) (infer w) (driver_fails w)
    (trace w).

(** *** A state and exception monad over the world

    An exception leaves the world as it was when it was raised: Python does
    not roll effects back. *)

Definition M (A : Type) : Type := World -> (Exn + A) * World.

Definition ret {A : Type} (a : A) : M A := fun w => (inr a, w).

Definition raise {A : Type} (e : Exn) : M A := fun w => (inl e, w).

Definition bind {A B : Type} (m : M A) (k : A -> M B) : M B :=
  fun w =>
    match m w with
    | (inl e, w') => (inl e, w')
    | (inr a, w') => k a w'
    end.

(** [try: body except Exception as e: handler e]. *)
Definition try_except {A : Type} (body : M A) (handler : Exn -> M A) : M A :=
  fun w =>
    match body w with
    | (inl e, w') => handler e w'
    | (inr a, w') => (inr a, w')
    end.

Notation "'do' x <- m 'in' k" := (bind m (fun x => k))
  (at level 10, x name, m at level 100, k at level 200).
Notation "'exec' m 'in' k" := (bind m (fun _ => k))
  (at level 10, m at level 100, k at level 200).

Definition time_time : M Q :=
  fun w => (inr (clock w (clock_pos w)), advance_clock w).

Definition time_sleep (seconds : Q) : M unit :=
  fun w => (inr tt, emit (EvSleep seconds) w).

Definition print (m : Message) : M unit :=
  fun w => (inr tt, emit (EvPrint m) w).

Definition logger (lvl : Level) (m : Message) : M unit :=
  fun w => (inr tt, emit (EvLog lvl m) w).

(** [random.randint(a, b)]: an integer of [a..b], both ends included, and a
    [ValueError] for an empty range.  Every value of the range is the image
    of some raw draw. *)
Definition random_randint (a b : Z) : M Z :=
  fun w =>
    if b <? a then (inl ValueError, w)
    else (inr (a + (rng w (rng_pos w)) mod (b - a + 1)), advance_rng w).

(** A call of the input driver: recorded, and failing when the driver says so. *)
Definition device_call (c : DeviceCall) : M unit :=
  fun w =>
    let w' := emit (EvDevice c) w in
    if driver_fails w c then (inl DriverError, w') else (inr tt, w').

Definition get_frame : M (option Frame) :=
  fun w => (inr (frames w (frame_pos w)), advance_frames w).

(** ** The actuator ([game_controller.py]) *)

Inductive ControllerKind := AndroidController | IOSController.

(** [str.lower()], on the ASCII letters.  The only strings the program
    compares a lowered string with are ASCII. *)
Definition ascii_lower (c : ascii) : ascii :=
  let n := nat_of_ascii c in
  if ((65 <=? n) && (n <=? 90))%nat then ascii_of_nat (n + 32) else c.

Fixpoint str_lower (s : string) : string :=
  match s with
  | EmptyString => EmptyString
  | String c rest => String (ascii_lower c) (str_lower rest)
  end.

Record ControllerManager := mkControllerManager {
  platform : string;
  controller : ControllerKind;
  screen_width : Z;
  screen_height : Z
}.

Definition ControllerManager_init (platform_arg : string) : M ControllerManager :=
  let platform := str_lower platform_arg in
  if String.eqb platform "android"
  then ret (mkControllerManager platform AndroidController 0 0)
  else if String.eqb platform "ios"
  then ret (mkControllerManager platform IOSController 0 0)
  else raise ValueError.

Definition set_screen_size (width height : Z) (self : ControllerManager)
  : ControllerManager :=
  mkControllerManager (platform self) (controller self) width height.

(** [AndroidController.tap]: the click lands up to two pixels from the
    requested point on each axis. *)
Definition AndroidController_tap (x y : Z) (duration : Q) : M unit :=
  try_except
    (do x_offset <- random_randint (-2) 2 in
     do y_offset <- random_randint (-2) 2 in
     exec device_call (DevClick (x + x_offset) (y + y_offset)) in
     time_sleep duration)
    (fun e => print (MsgTapFailed x y e)).

Definition IOSController_tap (x y : Z) (duration : Q) : M unit :=
  try_except
    (exec device_call (DevClick x y) in
     time_sleep duration)
    (fun e => print (MsgTapFailed x y e)).

Definition Controller_swipe (start_x start_y end_x end_y : Z) (duration : Q)
  : M unit :=
  try_except
    (device_call (DevSwipe start_x start_y end_x end_y duration))
    (fun e => print (MsgSwipeFailed e)).

Definition AndroidController_long_press (x y : Z) (duration : Q) : M unit :=
  try_except (device_call (DevLongClick x y duration))
    (fun e => print (MsgLongPressFailed e)).

Definition IOSController_long_press (x y : Z) (duration : Q) : M unit :=
  try_except (device_call (DevPress x y duration))
    (fun e => print (MsgLongPressFailed e)).

(** [range(n)] for an integer [n]: empty when [n <= 0]. *)
Definition py_range (n : Z) : list Z :=
  List.map Z.of_nat (seq 0 (Z.to_nat n)).

(** One point of the quadratic Bezier curve of [swipe_smooth], before and
    after [int(...)]. *)
Definition bezier (t p0 pc p1 : Q) : Q :=
  ((1 - t) ^ 2 * p0 + 2 * (1 - t) * t * pc + t ^ 2 * p1)%Q.

Definition bezier_points (start_x start_y end_x end_y : Z)
    (control_x control_y : Q) (steps : Z) : list (Z * Z) :=
  List.map
    (fun i : Z =>
       let t := (inject_Z i / inject_Z steps)%Q in
       let x := bezier t (inject_Z start_x) control_x (inject_Z end_x) in
       let y := bezier t (inject_Z start_y) control_y (inject_Z end_y) in
       (py_int x, py_int y))
    (py_range (steps + 1)).

(** The second loop of [swipe_smooth]: one short swipe per pair of
    consecutive points. *)
Fixpoint swipe_segments (points : list (Z * Z)) (step_duration : Q) : M unit :=
  match points with
  | (x1, y1) :: ((x2, y2) :: _) as rest =>
      exec device_call (DevSwipe x1 y1 x2 y2 step_duration) in
      swipe_segments rest step_duration
  | _ => ret tt
  end.

(** [AndroidController.swipe_smooth].  With [steps = 0] the first [i / steps]
    divides by zero; the handler of the method catches it. *)
Definition swipe_smooth (start_x start_y end_x end_y : Z) (duration : Q)
    (steps : Z) : M unit :=
  try_except
    (do rx <- random_randint (-50) 50 in
     let control_x := (inject_Z (start_x + end_x) / 2 + inject_Z rx)%Q in
     do ry <- random_randint (-50) 50 in
     let control_y := (inject_Z (start_y + end_y) / 2 + inject_Z ry)%Q in
     if steps =? 0 then raise ZeroDivisionError
     else
       let points :=
         bezier_points start_x start_y end_x end_y control_x control_y steps in
       let step_duration := (duration / inject_Z steps)%Q in
       swipe_segments points step_duration)
    (fun e => print (MsgSmoothSwipeFailed e)).

Definition ControllerManager_tap (self : ControllerManager) (x y : Z)
    (duration : Q) : M unit :=
  match controller self with
  | AndroidController => AndroidController_tap x y duration
  | IOSController => IOSController_tap x y duration
  end.

(** [ControllerManager.tap_random]: both draws happen outside any handler. *)
Definition tap_random (self : ControllerManager) (x y : Z) (radius : Z)
    (duration : Q) : M unit :=
  do offset_x <- random_randint (- radius) radius in
  do offset_y <- random_randint (- radius) radius in
  ControllerManager_tap self (x + offset_x) (y + offset_y) duration.

Definition ControllerManager_swipe (self : ControllerManager)
    (start_x start_y end_x end_y : Z) (duration : Q) : M unit :=
  Controller_swipe start_x start_y end_x end_y duration.

Definition ControllerManager_swipe_smooth (self : ControllerManager)
    (start_x start_y end_x end_y : Z) (duration : Q) : M unit :=
  match controller self with
  | AndroidController => swipe_smooth start_x start_y end_x end_y duration 20
  | IOSController => ControllerManager_swipe self start_x start_y end_x end_y duration
  end.

(** Default arguments of the signatures. *)
Definition default_tap_duration : Q := 5 # 100.
Definition default_swipe_duration : Q := 1 # 2.
Definition default_radius : Z := 5.

(** ** The detector ([yolo_detector.py]) *)

(** A [pathlib.Path], as far as the program observes it: its text and the
    suffix [pathlib] computes for it.  Whether it exists is asked of the
    world. *)
Record Path := mkPath {
  path_text : string;
  path_suffix : string
}.

Inductive ModelType := ultralytics | onnx.

Record YOLODetector := mkYOLODetector {
  model_path : Path;
  conf_threshold : Q;
  iou_threshold : Q;
  use_gpu : bool;
  model : option Model;
  class_names : list string;
  model_type : ModelType
}.

Definition _detect_model_type (p : Path) : M ModelType :=
  let suffix := str_lower (path_suffix p) in
  if String.eqb suffix ".pt" then ret ultralytics
  else if String.eqb suffix ".onnx" then ret onnx
  else raise ValueError.

(** The two loaders call into external libraries; whatever they raise is
    the loader oracle's answer.  The device selection and its prints happen
    inside that call. *)
Definition _load_ultralytics_model (self : YOLODetector) : M YOLODetector :=
  fun w =>
    match load_ultralytics w (path_text (model_path self)) with
    | inl e => (inl e, w)
    | inr m =>
        (inr (mkYOLODetector (model_path self) (conf_threshold self)
                (iou_threshold self) (use_gpu self) (Some m) (model_names m)
                (model_type self)), w)
    end.

Definition _load_onnx_model (self : YOLODetector) : M YOLODetector :=
  fun w =>
    match load_onnx w (path_text (model_path self)) with
    | inl e => (inl e, w)
    | inr m =>
        (inr (mkYOLODetector (model_path self) (conf_threshold self)
                (iou_threshold self) (use_gpu self) (Some m) []
                (model_type self)), w)
    end.

Definition path_exists (p : Path) : M bool :=
  fun w => (inr (fs_exists w (path_text p)), w).

Definition _load_model (self : YOLODetector) : M YOLODetector :=
  do present <- path_exists (model_path self) in
  if negb present then raise FileNotFoundError
  else
    exec print (MsgLoadingModel (path_text (model_path self))) in
    do self <- match model_type self with
               | ultralytics => _load_ultralytics_model self
               | onnx => _load_onnx_model self
               end in
    exec print (MsgModelLoaded (class_names self)) in
    ret self.

(** [YOLODetector.__init__]. *)
Definition YOLODetector_init (path : Path) (conf iou : Q) (gpu : bool)
  : M YOLODetector :=
  do mtype <- _detect_model_type path in
  _load_model (mkYOLODetector path conf iou gpu None [] mtype).

(** [l[i]] with Python's negative indices; [None] stands for [IndexError]. *)
Definition py_getitem {A : Type} (l : list A) (i : Z) : option A :=
  let n := Z.of_nat (length l) in
  if (0 <=? i) && (i <? n) then nth_error l (Z.to_nat i)
  else if (- n <=? i) && (i <? 0) then nth_error l (Z.to_nat (n + i))
  else None.

(** [class_name not in filter_classes], guarded by the truth value of the
    optional list. *)
Definition filtered_out (filter_classes : option (list string)) (cls : string)
  : bool :=
  match filter_classes with
  | None | Some [] => false
  | Some classes => negb (existsb (String.eqb cls) classes)
  end.

(** The body of the loop over [results.boxes]. *)
Definition box_detection (box : Box) (class_id : Z) (cls : string) : Detection :=
  let '(bx1, by1, bx2, by2) := box_xyxy box in
  let x1 := py_int bx1 in
  let y1 := py_int by1 in
  let x2 := py_int bx2 in
  let y2 := py_int by2 in
  mkDetection class_id cls (box_conf box) (x1, y1, x2, y2)
    ((x1 + x2) / 2, (y1 + y2) / 2).

Fixpoint parse_boxes (names : list string) (filter_classes : option (list string))
    (boxes : list Box) (detections : list Detection) : M (list Detection) :=
  match boxes with
  | [] => ret detections
  | box :: rest =>
      let class_id := py_int (box_cls box) in
      match py_getitem names class_id with
      | None => raise IndexError
      | Some cls =>
          if filtered_out filter_classes cls
          then parse_boxes names filter_classes rest detections
          else parse_boxes names filter_classes rest
                 (detections ++ [box_detection box class_id cls])
      end
  end.

Definition run_model (image : Frame) : M (list Box) :=
  fun w => (inr (infer w image), emit (EvInfer image) w).

Definition _detect_ultralytics (self : YOLODetector) (image : Frame)
    (filter_classes : option (list string)) : M (list Detection) :=
  do boxes <- run_model image in
  parse_boxes (class_names self) filter_classes boxes [].

Definition _detect_onnx (self : YOLODetector) (image : Frame)
    (filter_classes : option (list string)) : M (list Detection) :=
  raise NotImplementedError.

Definition detect (self : YOLODetector) (image : Frame)
    (filter_classes : option (list string)) : M (list Detection) :=
  match model self with
  | None => raise RuntimeError
  | Some _ =>
      match model_type self with
      | ultralytics => _detect_ultralytics self image filter_classes
      | onnx => _detect_onnx self image filter_classes
      end
  end.

(** ** The orchestrator ([main.py]) *)

(** The keys of [config['runtime']] that the loop reads. *)
Record Runtime := mkRuntime {
  fps_limit : Q;
  enable_visualization : bool;
  save_screenshots : bool;
  screenshot_interval : Z
}.

(** A [GameBot] after a successful [initialize]. *)
Record GameBot := mkGameBot {
  runtime : Runtime;
  bot_detector : YOLODetector;
  bot_controller : ControllerManager;
  bot_strategy : SimpleStrategy;
  is_running : bool;
  bot_frame_count : Z;
  fps : Q
}.

Definition set_bot_strategy (s : SimpleStrategy) (bot : GameBot) : GameBot :=
  mkGameBot (runtime bot) (bot_detector bot) (bot_controller bot) s
    (is_running bot) (bot_frame_count bot) (fps bot).

Definition set_bot_frame_count (n : Z) (bot : GameBot) : GameBot :=
  mkGameBot (runtime bot) (bot_detector bot) (bot_controller bot)
    (bot_strategy bot) (is_running bot) n (fps bot).

Definition set_fps (f : Q) (bot : GameBot) : GameBot :=
  mkGameBot (runtime bot) (bot_detector bot) (bot_controller bot)
    (bot_strategy bot) (is_running bot) (bot_frame_count bot) f.

(** [action == s] for the result of [decision.get('action')]. *)
Definition action_is (action : option string) (s : string) : bool :=
  match action with
  | Some a => String.eqb a s
  | None => false
  end.

Definition _execute_action (bot : GameBot) (decision : Decision) : M unit :=
  let action := d_action decision in
  let params : gmap string Z := default ∅ (d_params decision) in
  if action_is action "tap" then
    match params !! "x", params !! "y" with
    | Some x, Some y =>
        exec tap_random (bot_controller bot) x y default_radius
               default_tap_duration in
        logger DEBUG (MsgTapExecuted x y)
    | _, _ => ret tt
    end
  else if action_is action "swipe" then
    match params !! "start_x", params !! "start_y",
          params !! "end_x", params !! "end_y" with
    | Some start_x, Some start_y, Some end_x, Some end_y =>
        exec ControllerManager_swipe (bot_controller bot)
               start_x start_y end_x end_y default_swipe_duration in
        logger DEBUG (MsgSwipeExecuted start_x start_y end_x end_y)
    | _, _, _, _ => ret tt
    end
  else if action_is action "wait" then ret tt
  else logger WARNING (MsgUnknownAction action).

Definition when (b : bool) (m : M unit) : M unit :=
  if b then m else ret tt.

Definition emit_event (e : Event) : M unit :=
  fun w => (inr tt, emit e w).

(** One pass through the body of [while self.is_running].  [frame_time] and
    [last_time] are the local variables of [run]; [continue] and the end of
    the body both hand the pair (bot, last_time) to the next pass. *)
Definition run_iteration (frame_time : Q) (bot : GameBot) (last_time : Q)
  : M (GameBot * Q) :=
  do loop_start <- time_time in
  do frame <- get_frame in
  match frame with
  | None =>
      exec logger WARNING MsgFrameFetchFailed in
      exec time_sleep (1 # 2) in
      ret (bot, last_time)
  | Some frame =>
      do detections <- detect (bot_detector bot) frame None in
      do now <- time_time in
      let '(decision, strategy) := update (bot_strategy bot) now frame detections in
      let bot := set_bot_strategy strategy bot in
      exec match decision with
           | Some d => when (decision_truthy d) (_execute_action bot d)
           | None => ret tt
           end in
      exec when (enable_visualization (runtime bot)) (emit_event EvImshow) in
      exec (if save_screenshots (runtime bot) then
              if screenshot_interval (runtime bot) =? 0
              then raise ZeroDivisionError
              else when (bot_frame_count bot mod screenshot_interval (runtime bot) =? 0)
                        (emit_event (EvImwrite (bot_frame_count bot)))
            else ret tt) in
      let bot := set_bot_frame_count (bot_frame_count bot + 1) bot in
      do current_time <- time_time in
      if Qeq_bool (current_time - last_time) 0 then raise ZeroDivisionError
      else
        let bot := set_fps (1 / (current_time - last_time))%Q bot in
        let last_time := current_time in
        exec when (bot_frame_count bot mod 30 =? 0)
                  (logger INFO
                     (MsgFrameStats (bot_frame_count bot) (fps bot)
                        (length detections)
                        (GameState_value (current_state (bot_strategy bot))))) in
        do loop_end <- time_time in
        let elapsed := (loop_end - loop_start)%Q in
        exec when (Qltb elapsed frame_time)
                  (time_sleep (frame_time - elapsed)%Q) in
        ret (bot, last_time)
  end.

(** The first [fuel] passes of the loop.  The loop ends before that only
    when [is_running] is false or an exception escapes a pass. *)
Fixpoint run_loop (fuel : nat) (frame_time : Q) (bot : GameBot) (last_time : Q)
  : M (GameBot * Q) :=
  match fuel with
  | O => ret (bot, last_time)
  | S fuel' =>
      if is_running bot then
        do st <- run_iteration frame_time bot last_time in
        run_loop fuel' frame_time (fst st) (snd st)
      else ret (bot, last_time)
  end.

(** ** Vocabulary of the statements *)

(** State [s] is indicated by the detections: one of the class names
    configured for [s] is the class name of some detection. *)
Definition indicated (self : SimpleStrategy) (s : GameState)
    (detections : list Detection) : Prop :=
  exists indicators det,
    In (s, indicators) (state_indicators self) /\
    In det detections /\
    In (class_name det) indicators.

(** The centre the detector derives from a bounding box. *)
Definition bbox_center (b : Z * Z * Z * Z) : Z * Z :=
  let '(x1, y1, x2, y2) := b in ((x1 + x2) / 2, (y1 + y2) / 2).

(** The control point and the path of [swipe_smooth] for given outcomes
    [rx], [ry] of its two draws. *)
Definition swipe_points (start_x start_y end_x end_y steps rx ry : Z)
  : list (Z * Z) :=
  bezier_points start_x start_y end_x end_y
    (inject_Z (start_x + end_x) / 2 + inject_Z rx)%Q
    (inject_Z (start_y + end_y) / 2 + inject_Z ry)%Q
    steps.


(** The extra distance a controller adds to a tap on its own. *)
Definition controller_slack (k : ControllerKind) : Z :=
  match k with
  | AndroidController => 2
  | IOSController => 0
  end.

(** ** Sample inputs

    The detections of the module's own test code and of the specification's
    end-to-end scenario. *)

Definition det_start_button : Detection :=
  mkDetection 0 "start_button" (95 # 100) (100, 200, 300, 400) (200, 300).

Definition det_menu_bg : Detection :=
  mkDetection 1 "menu_bg" (98 # 100) (0, 0, 720, 1280) (360, 640).

Definition det_enemy : Detection :=
  mkDetection 2 "enemy" (9 # 10) (10, 10, 50, 50) (30, 30).

Definition android_manager : ControllerManager :=
  mkControllerManager "android" AndroidController 720 1280.

Definition ios_manager : ControllerManager :=
  mkControllerManager "ios" IOSController 750 1334.

(** A world in which nothing has happened yet, with the given entropy and
    frames: the clock ticks once a second, no file exists, the model sees
    nothing and the driver accepts every call. *)
Definition sample_world (draws : nat -> Z) (shots : nat -> option Frame) : World :=
  mkWorld (fun n => inject_Z (Z.of_nat n)) 0 draws 0 shots 0
    (fun _ => false) (fun _ => inl ImportError) (fun _ => inl ImportError)
    (fun _ => []) (fun _ => false) [].

(** Raw draws that send both offsets of [tap_random 5] to +5 and both
    offsets of the Android tap to +2. *)
Definition far_draws (n : nat) : Z :=
  match n with
  | O | S O => 10
  | _ => 4
  end.

Definition sample_detector : YOLODetector :=
  mkYOLODetector (mkPath "models/best.pt" ".pt") (25 # 100) (45 # 100) true
    (Some (mkModel ["start_button"; "menu_bg"; "enemy"]))
    ["start_button"; "menu_bg"; "enemy"] ultralytics.

Definition sample_bot : GameBot :=
  mkGameBot (mkRuntime 30 false false 100) sample_detector android_manager
    (set_action_cooldown (1 # 2) SimpleStrategy_init) true 0 0.

(** The policy of the end-to-end scenario: battle is indicated by "enemy". *)
Definition battle_only_strategy : SimpleStrategy :=
  mkSimpleStrategy "SimpleStrategy" UNKNOWN 0 0 (1 # 2) [(BATTLE, ["enemy"])].


(** ** The rest of the policy module ([base_strategy.py]) *)

(** [==] on the members of the enumeration. *)
Definition GameState_eqb (a b : GameState) : bool :=
  match a, b with
  | IDLE, IDLE | MENU, MENU | BATTLE, BATTLE | LOADING, LOADING
  | REWARD, REWARD | DIALOGUE, DIALOGUE | UNKNOWN, UNKNOWN => true
  | _, _ => false
  end.

(** The instance attributes of a [StateMachineStrategy] object. *)
Record StateMachineStrategy := mkStateMachineStrategy {
  sm_name : string;
  sm_current_state : GameState;
  sm_frame_count : Z;
  sm_last_action_time : Q;
  sm_action_cooldown : Q;
  transitions : list (GameState * list GameState);
  state_history : list GameState;
  max_history : Z
}.

Definition StateMachineStrategy_init : StateMachineStrategy := {|
  sm_name := "StateMachineStrategy";
  sm_current_state := UNKNOWN;
  sm_frame_count := 0;
  sm_last_action_time := 0;
  sm_action_cooldown := 1 # 2;
  transitions :=
    [ (MENU, [LOADING; BATTLE]);
      (LOADING, [BATTLE; MENU]);
      (BATTLE, [REWARD; LOADING]);
      (REWARD, [MENU; BATTLE]) ];
  state_history := [];
  max_history := 10
|}.

Definition set_state_history (h : list GameState) (self : StateMachineStrategy)
  : StateMachineStrategy :=
  mkStateMachineStrategy (sm_name self) (sm_current_state self)
    (sm_frame_count self) (sm_last_action_time self) (sm_action_cooldown self)
    (transitions self) h (max_history self).

(** [_update_state_history]: [append], then [pop(0)] when the list has
    grown beyond [max_history]. *)
Definition _update_state_history (self : StateMachineStrategy) (state : GameState)
  : StateMachineStrategy :=
  let history := (state_history self ++ [state])%list in
  let history :=
    if max_history self <? Z.of_nat (length history) then tail history
    else history in
  set_state_history history self.

(** [d[key]] for a dictionary kept as an association list. *)
Fixpoint dict_get {V : Type} (key : GameState) (items : list (GameState * V))
  : option V :=
  match items with
  | [] => None
  | (k, v) :: rest => if GameState_eqb k key then Some v else dict_get key rest
  end.

Definition _can_transition (self : StateMachineStrategy)
    (from_state to_state : GameState) : bool :=
  match dict_get from_state (transitions self) with
  | None => true
  | Some targets => existsb (GameState_eqb to_state) targets
  end.

Definition sm_analyze_state {F : Type} (self : StateMachineStrategy) (frame : F)
    (detections : list Detection) : GameState :=
  UNKNOWN.

(** [StateMachineStrategy.make_decision] records the state before it
    answers, so it returns the object as well. *)
Definition sm_make_decision {F : Type} (self : StateMachineStrategy) (frame : F)
    (detections : list Detection) (state : GameState)
  : Decision * StateMachineStrategy :=
  (wait_decision, _update_state_history self state).

(** [BaseStrategy.update], as inherited by [StateMachineStrategy]. *)
Definition sm_update {F : Type} (self : StateMachineStrategy) (current_time : Q)
    (frame : F) (detections : list Detection)
  : option Decision * StateMachineStrategy :=
  let self :=
    mkStateMachineStrategy (sm_name self) (sm_current_state self)
      (sm_frame_count self + 1) (sm_last_action_time self)
      (sm_action_cooldown self) (transitions self) (state_history self)
      (max_history self) in
  let self :=
    mkStateMachineStrategy (sm_name self)
      (sm_analyze_state self frame detections)
      (sm_frame_count self) (sm_last_action_time self)
      (sm_action_cooldown self) (transitions self) (state_history self)
      (max_history self) in
  if Qltb (current_time - sm_last_action_time self) (sm_action_cooldown self)
  then (None, self)
  else
    let '(decision, self) :=
      sm_make_decision self frame detections (sm_current_state self) in
    let self :=
      if decision_truthy decision
      then mkStateMachineStrategy (sm_name self) (sm_current_state self)
             (sm_frame_count self) current_time (sm_action_cooldown self)
             (transitions self) (state_history self) (max_history self)
      else self in
    (Some decision, self).

(** A run of calls of [update] on one policy object: each call with its
    clock reading, frame and detections; the answer of each call is kept
    with its clock reading. *)
Fixpoint update_all {F : Type} (self : SimpleStrategy)
    (calls : list (Q * F * list Detection))
  : list (Q * option Decision) * SimpleStrategy :=
  match calls with
  | [] => ([], self)
  | (t, frame, detections) :: rest =>
      let '(answer, self) := update self t frame detections in
      let '(answers, self) := update_all self rest in
      ((t, answer) :: answers, self)
  end.

(** The clock readings of the calls that emitted a decision. *)
Definition emitted_times (answers : list (Q * option Decision)) : list Q :=
  List.map fst (List.filter (fun a => match snd a with
                                      | Some _ => true
                                      | None => false
                                      end) answers).

(** ** The rest of the actuator module ([game_controller.py]) *)

Definition ControllerManager_long_press (self : ControllerManager) (x y : Z)
    (duration : Q) : M unit :=
  match controller self with
  | AndroidController => AndroidController_long_press x y duration
  | IOSController => IOSController_long_press x y duration
  end.





(** ** The rest of the detector module ([yolo_detector.py]) *)




Definition class_colors : list (Z * Z * Z) :=
  [ (255, 0, 0); (0, 255, 0); (0, 0, 255);
    (255, 255, 0); (255, 0, 255); (0, 255, 255) ].

(** [colors[class_id % len(colors)]]; [None] stands for [IndexError]. *)
Definition _get_class_color (class_id : Z) : option (Z * Z * Z) :=
  py_getitem class_colors (class_id mod Z.of_nat (length class_colors)).

Record DetectionTracker := mkDetectionTracker {
  max_frames : Z;
  tracked_objects : gmap Z (list Detection);
  next_id : Z
}.

Definition DetectionTracker_init (max_frames : Z) : DetectionTracker :=
  mkDetectionTracker max_frames ∅ 0.

(** The loop of [DetectionTracker.update]. *)
Fixpoint track_loop (detections : list Detection) (tracked : gmap Z Detection)
    (next : Z) : gmap Z Detection * Z :=
  match detections with
  | [] => (tracked, next)
  | det :: rest => track_loop rest (<[next := det]> tracked) (next + 1)
  end.

Definition DetectionTracker_update (self : DetectionTracker)
    (detections : list Detection) : gmap Z Detection * DetectionTracker :=
  let '(tracked, next) := track_loop detections ∅ (next_id self) in
  (tracked, mkDetectionTracker (max_frames self) (tracked_objects self) next).

(** ** More vocabulary *)

(** The calls of the input driver recorded in a trace, oldest first. *)
Fixpoint device_calls (events : list Event) : list DeviceCall :=
  match events with
  | [] => []
  | EvDevice call :: rest => call :: device_calls rest
  | _ :: rest => device_calls rest
  end.

(** The pairs of consecutive elements of a list. *)
Definition segments {A : Type} (points : list A) : list (A * A) :=
  combine points (tail points).

(** The swipe of one segment of a path. *)
Definition segment_swipe (step_duration : Q) (s : (Z * Z) * (Z * Z))
  : DeviceCall :=
  DevSwipe (fst (fst s)) (snd (fst s)) (fst (snd s)) (snd (snd s)) step_duration.


(** A world whose driver accepts every call. *)
Definition driver_accepts_all (w : World) : Prop :=
  forall call, driver_fails w call = false.

(** The world after a list of events has been recorded, oldest first. *)
Definition emit_all (events : list Event) (w : World) : World :=
  fold_left (fun w e => emit e w) events w.

(** The class id the detector reads off a box, and whether the vocabulary
    has a name for it. *)
Definition box_class_id (box : Box) : Z := py_int (box_cls box).

Definition box_in_vocabulary (names : list string) (box : Box) : Prop :=
  py_getitem names (box_class_id box) <> None.

(** [det] is the detection the detector builds from [box]. *)
Definition detection_of_box (names : list string) (box : Box) (det : Detection)
  : Prop :=
  exists cls,
    py_getitem names (box_class_id box) = Some cls /\
    det = box_detection box (box_class_id box) cls.

(** A class name passes the optional filter: a missing or empty filter lets
    every class pass. *)
Definition passes_filter (filter_classes : option (list string)) (cls : string)
  : Prop :=
  match filter_classes with
  | None | Some [] => True
  | Some classes => In cls classes
  end.

(** The detections of the boxes that pass the filter, in the order of the
    boxes, as one expression. *)
Definition kept_detections (names : list string)
    (filter_classes : option (list string)) (boxes : list Box)
  : list Detection :=
  flat_map
    (fun box =>
       match py_getitem names (box_class_id box) with
       | Some cls =>
           if filtered_out filter_classes cls then []
           else [box_detection box (box_class_id box) cls]
       | None => []
       end) boxes.

(** Two boxes as the model reports them, and a world whose model answers
    every image with given boxes. *)
Definition box_start_button : Box :=
  mkBox 0 (95 # 100) (100 # 1, 200 # 1, 300 # 1, 400 # 1)%Q.

Definition box_enemy : Box :=
  mkBox 2 (9 # 10) (10 # 1, 10 # 1, 50 # 1, 50 # 1)%Q.

Definition seeing_world (boxes : list Box) (shots : nat -> option Frame) : World :=
  mkWorld (fun n => inject_Z (Z.of_nat n)) 0 far_draws 0 shots 0
    (fun _ => true) (fun _ => inr (mkModel ["start_button"; "menu_bg"; "enemy"]))
    (fun _ => inr (mkModel [])) (fun _ => boxes) (fun _ => false) [].

(** The number of frames the frame source delivers in its next [fuel]
    answers. *)
Definition frames_fetched (w : World) (fuel : nat) : nat :=
  length (List.filter (fun position => match frames w position with
                                       | Some _ => true
                                       | None => false
                                       end)
            (seq (frame_pos w) fuel)).

(** The frame source is as it was: the same stream, read up to the same
    position. *)
Definition frames_untouched (w w' : World) : Prop :=
  frames w' = frames w /\ frame_pos w' = frame_pos w.

(** A bot whose detector was built from an ".onnx" model. *)
Definition onnx_bot : GameBot :=
  mkGameBot (mkRuntime 30 false false 100)
    (mkYOLODetector (mkPath "models/best.onnx" ".onnx") (25 # 100) (45 # 100)
       true (Some (mkModel [])) [] onnx)
    android_manager (set_action_cooldown (1 # 2) SimpleStrategy_init) true 0 0.

(** * Properties *)

(** ** Comparisons on rationals *)

Lemma Qltb_lt (a b : Q) : Qltb a b = true <-> (a < b)%Q.
Proof.
  unfold Qltb. rewrite negb_true_iff. split.
  - intros H. apply Qnot_le_lt. intros Hle.
    apply Qle_bool_iff in Hle. congruence.
  - intros H. destruct (Qle_bool b a) eqn:E; [|reflexivity].
    apply Qle_bool_iff in E. exfalso. apply (Qlt_not_le _ _ H E).
Qed.

Lemma Qltb_ge (a b : Q) : Qltb a b = false <-> (b <= a)%Q.
Proof.
  unfold Qltb. rewrite negb_false_iff. apply Qle_bool_iff.
Qed.

(** ** The code on the inputs of its own test and of the scenario *)

Example analyze_state_mock_detections :
  analyze_state SimpleStrategy_init tt [det_start_button; det_menu_bg] = MENU /\
  make_decision SimpleStrategy_init tt [det_start_button; det_menu_bg] MENU =
    tap_decision 200 300.
Proof. split; reflexivity. Qed.

Example box_detection_start_button :
  box_detection (mkBox 0 (95 # 100) (100 # 1, 200 # 1, 300 # 1, 400 # 1)%Q)
    0 "start_button" = det_start_button.
Proof. reflexivity. Qed.

Example scenario_battle :
  analyze_state battle_only_strategy tt [det_enemy] = BATTLE /\
  make_decision battle_only_strategy tt [det_enemy] BATTLE = tap_decision 30 30 /\
  trace (snd (_execute_action sample_bot (tap_decision 30 30)
                (sample_world far_draws (fun _ => None)))) =
    [EvDevice (DevClick 37 37); EvSleep default_tap_duration;
     EvLog DEBUG (MsgTapExecuted 30 30)].
Proof. repeat split; vm_compute; reflexivity. Qed.

(** ** State classification *)

Lemma has_detection_In (detections : list Detection) (cls : string) :
  has_detection detections cls = true <->
  exists det, In det detections /\ class_name det = cls.
Proof.
  unfold has_detection. rewrite existsb_exists.
  split; intros [det [Hin Heq]]; exists det; split; auto.
  - by apply String.eqb_eq.
  - by apply String.eqb_eq.
Qed.

Lemma scan_indicators_In (detections : list Detection) (indicators : list string) :
  scan_indicators detections indicators = true <->
  exists det, In det detections /\ In (class_name det) indicators.
Proof.
  induction indicators as [|c rest IH]; simpl.
  - split; [discriminate | intros [? [_ []]]].
  - destruct (has_detection detections c) eqn:Hc.
    + split; [intros _ | reflexivity].
      apply has_detection_In in Hc as [det [Hin Heq]].
      exists det. auto.
    + rewrite IH. split.
      * intros [det [Hin Hrest]]. exists det. auto.
      * intros [det [Hin [Heq | Hrest]]]; [|exists det; auto].
        exfalso. assert (has_detection detections c = true) as Ht.
        { apply has_detection_In. exists det. auto. }
        congruence.
Qed.

Lemma scan_indicators_nil (indicators : list string) :
  scan_indicators [] indicators = false.
Proof. induction indicators; simpl; auto. Qed.

Lemma scan_states_nil (items : list (GameState * list string)) :
  scan_states [] items = UNKNOWN.
Proof.
  induction items as [|[s inds] rest IH]; simpl; [reflexivity|].
  by rewrite scan_indicators_nil.
Qed.

(** In the table of the reference policy each state has one entry, so being
    indicated is what the loop tests for that entry. *)
Lemma indicated_init (s : GameState) (indicators : list string)
    (detections : list Detection) :
  In (s, indicators) (state_indicators SimpleStrategy_init) ->
  indicated SimpleStrategy_init s detections <->
  scan_indicators detections indicators = true.
Proof.
  intros Hin. rewrite scan_indicators_In. unfold indicated. split.
  - intros [inds' [det [Hin' [Hd Hc]]]]. exists det. split; [done|].
    simpl in Hin, Hin'.
    repeat (destruct Hin as [Hin | Hin]; [inversion Hin; subst; clear Hin|]);
      try done;
      repeat (destruct Hin' as [Hin' | Hin']; [inversion Hin'; subst; clear Hin'|]);
      done.
  - intros [det [Hd Hc]]. exists indicators, det. auto.
Qed.

(** C1: for every detection list, [analyze_state] of the reference policy
    returns the first state of the order menu, battle, reward, loading that
    is indicated by the detections, and [unknown] when none is; a list with
    both a "start_button" and an "enemy" detection is classified as menu. *)
Theorem analyze_state_first_in_priority :
  forall (F : Type) (frame : F) (detections : list Detection),
    let self := SimpleStrategy_init in
    let result := analyze_state self frame detections in
    (indicated self MENU detections -> result = MENU) /\
    (~ indicated self MENU detections ->
     indicated self BATTLE detections -> result = BATTLE) /\
    (~ indicated self MENU detections ->
     ~ indicated self BATTLE detections ->
     indicated self REWARD detections -> result = REWARD) /\
    (~ indicated self MENU detections ->
     ~ indicated self BATTLE detections ->
     ~ indicated self REWARD detections ->
     indicated self LOADING detections -> result = LOADING) /\
    (~ indicated self MENU detections ->
     ~ indicated self BATTLE detections ->
     ~ indicated self REWARD detections ->
     ~ indicated self LOADING detections -> result = UNKNOWN) /\
    (forall d1 d2,
        In d1 detections -> class_name d1 = "start_button" ->
        In d2 detections -> class_name d2 = "enemy" ->
        indicated self BATTLE detections /\ result = MENU).
Proof.
  intros F frame detections self result.
  pose proof (indicated_init MENU ["start_button"; "menu_bg"] detections) as HM.
  pose proof (indicated_init BATTLE ["enemy"; "hp_bar"; "skill_button"] detections) as HB.
  pose proof (indicated_init REWARD ["reward_icon"; "claim_button"] detections) as HR.
  pose proof (indicated_init LOADING ["loading_icon"] detections) as HL.
  specialize (HM ltac:(simpl; tauto)). specialize (HB ltac:(simpl; tauto)).
  specialize (HR ltac:(simpl; tauto)). specialize (HL ltac:(simpl; tauto)).
  fold self in HM, HB, HR, HL.
  assert (result =
            if scan_indicators detections ["start_button"; "menu_bg"] then MENU
            else if scan_indicators detections ["enemy"; "hp_bar"; "skill_button"] then BATTLE
            else if scan_indicators detections ["reward_icon"; "claim_button"] then REWARD
            else if scan_indicators detections ["loading_icon"] then LOADING
            else UNKNOWN) as Hres by reflexivity.
  assert (forall d1 d2,
             In d1 detections -> class_name d1 = "start_button" ->
             In d2 detections -> class_name d2 = "enemy" ->
             indicated self BATTLE detections /\ result = MENU) as Hboth.
  { intros d1 d2 H1 Hc1 H2 Hc2.
    assert (indicated self MENU detections) as HiM.
    { exists ["start_button"; "menu_bg"], d1. rewrite Hc1. simpl. tauto. }
    split.
    - exists ["enemy"; "hp_bar"; "skill_button"], d2. rewrite Hc2. simpl. tauto.
    - apply HM in HiM. rewrite Hres, HiM. reflexivity. }
  destruct (scan_indicators detections ["start_button"; "menu_bg"]) eqn:EM;
    destruct (scan_indicators detections ["enemy"; "hp_bar"; "skill_button"]) eqn:EB;
    destruct (scan_indicators detections ["reward_icon"; "claim_button"]) eqn:ER;
    destruct (scan_indicators detections ["loading_icon"]) eqn:EL;
    (split; [|split; [|split; [|split; [|split]]]]);
    try exact Hboth; intros; try assumption;
    exfalso; intuition congruence.
Qed.

Lemma analyze_state_first_in_priority_witness :
  indicated SimpleStrategy_init BATTLE [det_start_button; det_enemy] /\
  analyze_state SimpleStrategy_init tt [det_start_button; det_enemy] = MENU.
Proof.
  apply (proj2 (proj2 (proj2 (proj2 (proj2
           (analyze_state_first_in_priority unit tt
              [det_start_button; det_enemy])))))
           det_start_button det_enemy);
    simpl; auto.
Defined.

(** ** Decisions of the reference policy *)

Lemma get_detections_by_class_first (cls : string)
    (before : list Detection) (det : Detection) (after : list Detection) :
  Forall (fun d => class_name d <> cls) before ->
  class_name det = cls ->
  get_detections_by_class (before ++ det :: after)%list cls =
  det :: get_detections_by_class after cls.
Proof.
  intros Hbefore Hdet. unfold get_detections_by_class.
  induction Hbefore as [|d rest Hd _ IH]; simpl.
  - apply String.eqb_eq in Hdet. by rewrite Hdet.
  - apply String.eqb_neq in Hd. by rewrite Hd.
Qed.

Lemma get_detections_by_class_none (cls : string) (detections : list Detection) :
  (forall det, In det detections -> class_name det <> cls) ->
  get_detections_by_class detections cls = [].
Proof.
  intros Hnone. unfold get_detections_by_class.
  induction detections as [|d rest IH]; simpl; [reflexivity|].
  assert (class_name d <> cls) as Hd by (apply Hnone; simpl; auto).
  apply String.eqb_neq in Hd. rewrite Hd.
  apply IH. intros det Hin. apply Hnone. simpl. auto.
Qed.

Lemma tap_decision_params (cx cy : Z) :
  d_action (tap_decision cx cy) = Some "tap" /\
  exists params : gmap string Z,
    d_params (tap_decision cx cy) = Some params /\
    params !! "x" = Some cx /\ params !! "y" = Some cy.
Proof.
  split; [reflexivity|]. eexists. split; [reflexivity|]. split.
  - rewrite lookup_insert_ne by discriminate. apply lookup_insert_eq.
  - apply lookup_insert_eq.
Qed.

(** Every decision of the reference policy is one of the two shapes its
    handlers build. *)
Lemma make_decision_shape (F : Type) (self : SimpleStrategy) (frame : F)
    (detections : list Detection) (state : GameState) :
  make_decision self frame detections state = wait_decision \/
  exists cx cy, make_decision self frame detections state = tap_decision cx cy.
Proof.
  destruct state; simpl; auto;
    unfold _handle_menu, _handle_battle, _handle_reward;
    repeat match goal with
    | |- context [match get_detections_by_class ?l ?c with _ => _ end] =>
        destruct (get_detections_by_class l c) as [|[? ? ? ? [? ?]] ?]
    end; simpl; eauto.
Qed.

Lemma make_decision_truthy (F : Type) (self : SimpleStrategy) (frame : F)
    (detections : list Detection) (state : GameState) :
  decision_truthy (make_decision self frame detections state) = true.
Proof.
  destruct (make_decision_shape F self frame detections state)
    as [-> | [cx [cy ->]]]; reflexivity.
Qed.

(** C4: with no detection at all, [analyze_state] answers [unknown], whatever
    the frame; and for the state [unknown] [make_decision] answers the
    decision "wait" with empty parameters, whatever the frame and the
    detections. *)
Theorem no_detections_unknown_then_wait :
  forall (F : Type) (self : SimpleStrategy) (frame : F),
    analyze_state SimpleStrategy_init frame [] = UNKNOWN /\
    analyze_state self frame [] = UNKNOWN /\
    forall detections : list Detection,
      make_decision self frame detections UNKNOWN =
      mkDecision (Some "wait") (Some ∅).
Proof.
  intros F self frame. split; [reflexivity|]. split.
  - unfold analyze_state. apply scan_states_nil.
  - reflexivity.
Qed.

(** C5: in state menu the decision is a tap at the centre of the first
    "start_button" detection; when that detection has the box
    (100, 200, 300, 400), whose derived centre is (200, 300), the decision is
    the tap with x = 200 and y = 300; the detector derives the centre of every
    detection it builds from its box in this way; and without any
    "start_button" detection the decision is "wait". *)
Theorem menu_taps_first_start_button :
  forall (F : Type) (self : SimpleStrategy) (frame : F)
         (detections : list Detection),
    (forall before button after,
        detections = (before ++ button :: after)%list ->
        Forall (fun det => class_name det <> "start_button") before ->
        class_name button = "start_button" ->
        make_decision self frame detections MENU =
          tap_decision (fst (center button)) (snd (center button)) /\
        (bbox button = (100, 200, 300, 400) ->
         center button = bbox_center (bbox button) ->
         make_decision self frame detections MENU = tap_decision 200 300 /\
         d_action (tap_decision 200 300) = Some "tap" /\
         exists params : gmap string Z,
           d_params (tap_decision 200 300) = Some params /\
           params !! "x" = Some 200 /\ params !! "y" = Some 300)) /\
    ((forall det, In det detections -> class_name det <> "start_button") ->
        make_decision self frame detections MENU =
          mkDecision (Some "wait") (Some ∅)) /\
    (forall box class_id cls,
        center (box_detection box class_id cls) =
        bbox_center (bbox (box_detection box class_id cls))).
Proof.
  intros F self frame detections. split; [|split].
  - intros before button after Hdets Hbefore Hbutton.
    assert (make_decision self frame detections MENU =
              tap_decision (fst (center button)) (snd (center button))) as Htap.
    { simpl. unfold _handle_menu. rewrite Hdets.
      rewrite (get_detections_by_class_first _ _ _ _ Hbefore Hbutton).
      by destruct (center button). }
    split; [exact Htap|].
    intros Hbox Hcenter. rewrite Htap, Hcenter, Hbox.
    split; [reflexivity|]. apply tap_decision_params.
  - intros Hnone. simpl. unfold _handle_menu.
    by rewrite (get_detections_by_class_none _ _ Hnone).
  - intros box class_id cls. unfold box_detection.
    destruct (box_xyxy box) as [[[bx1 by1] bx2] by2]. reflexivity.
Qed.

Lemma menu_taps_first_start_button_witness :
  make_decision SimpleStrategy_init tt [det_menu_bg; det_start_button] MENU =
  tap_decision 200 300.
Proof.
  refine (proj1 (proj2 (proj1 (menu_taps_first_start_button unit
            SimpleStrategy_init tt [det_menu_bg; det_start_button])
            [det_menu_bg] det_start_button [] eq_refl _ eq_refl)
            eq_refl eq_refl)).
  repeat constructor. discriminate.
Defined.

(** ** The cooldown gate *)

(** C3: every call of [update] stores the state computed from the
    detections of the current frame, also a call that the cooldown
    suppresses; a suppressed call returns no decision and leaves the
    last-action timestamp as it was. *)
Theorem update_recomputes_state :
  forall (F : Type) (self : SimpleStrategy) (now : Q) (frame : F)
         (detections : list Detection),
    let result := update self now frame detections in
    current_state (snd result) = analyze_state self frame detections /\
    frame_count (snd result) = frame_count self + 1 /\
    ((now - last_action_time self < action_cooldown self)%Q ->
     fst result = None /\
     last_action_time (snd result) = last_action_time self /\
     current_state (snd result) = analyze_state self frame detections).
Proof.
  intros F self now frame detections result. subst result.
  unfold update. simpl.
  destruct (Qltb (now - last_action_time self) (action_cooldown self)) eqn:Hgate.
  - simpl. repeat split; reflexivity.
  - assert (forall A B : Prop, (A -> False) -> A -> B) as Hex by tauto.
    split; [|split].
    + by destruct (decision_truthy _).
    + by destruct (decision_truthy _).
    + apply Hex. intros Hlt. apply Qltb_lt in Hlt. congruence.
Qed.

Lemma update_recomputes_state_witness :
  fst (update (set_current_state BATTLE SimpleStrategy_init) (1 # 4) tt
         [det_start_button]) = None /\
  last_action_time
    (snd (update (set_current_state BATTLE SimpleStrategy_init) (1 # 4) tt
            [det_start_button])) = 0%Q /\
  current_state
    (snd (update (set_current_state BATTLE SimpleStrategy_init) (1 # 4) tt
            [det_start_button])) = MENU.
Proof.
  apply (proj2 (proj2 (update_recomputes_state unit
           (set_current_state BATTLE SimpleStrategy_init) (1 # 4) tt
           [det_start_button]))).
  reflexivity.
Defined.

(** C2: with a cooldown of half a second, a call of [update] made less than
    half a second after the timestamp of the last emitted decision returns no
    decision, whatever [make_decision] would answer; a call made half a second
    or more after it returns the decision of [make_decision].  The timestamp
    of a call that emitted a decision is the clock reading of that call. *)
Theorem update_cooldown_gate :
  forall (F : Type) (self : SimpleStrategy) (t1 t2 : Q) (frame1 frame2 : F)
         (detections1 detections2 : list Detection),
    action_cooldown self = 1 # 2 ->
    let first := update self t1 frame1 detections1 in
    let second := update (snd first) t2 frame2 detections2 in
    (fst first <> None -> last_action_time (snd first) = t1) /\
    ((t2 - last_action_time (snd first) < 1 # 2)%Q -> fst second = None) /\
    ((1 # 2 <= t2 - last_action_time (snd first))%Q ->
     exists decision,
       fst second = Some decision /\
       decision_truthy decision = true /\
       decision =
         make_decision (snd first) frame2 detections2
           (analyze_state (snd first) frame2 detections2)).
Proof.
  intros F self t1 t2 frame1 frame2 detections1 detections2 Hcool first second.
  assert (action_cooldown (snd first) = 1 # 2) as Hcool1.
  { subst first. unfold update. simpl.
    destruct (Qltb _ _); simpl; [exact Hcool|].
    rewrite make_decision_truthy. exact Hcool. }
  split; [|split].
  - subst first. unfold update. simpl.
    destruct (Qltb _ _); simpl; [congruence|].
    rewrite make_decision_truthy. reflexivity.
  - intros Hlt. subst second. unfold update at 1. simpl.
    rewrite Hcool1. apply Qltb_lt in Hlt. rewrite Hlt. reflexivity.
  - intros Hge. subst second. unfold update at 1. simpl.
    rewrite Hcool1. apply Qltb_ge in Hge. rewrite Hge. simpl.
    eexists. split; [reflexivity|]. split; [apply make_decision_truthy|].
    reflexivity.
Qed.

Lemma update_cooldown_gate_witness :
  let first := update SimpleStrategy_init 1000 tt [det_start_button] in
  fst (update (snd first) (4001 # 4) tt [det_start_button]) = None /\
  exists decision,
    fst (update (snd first) (2001 # 2) tt [det_start_button]) = Some decision /\
    decision_truthy decision = true.
Proof.
  intros first. split.
  - apply (proj1 (proj2 (update_cooldown_gate unit SimpleStrategy_init 1000
             (4001 # 4) tt tt [det_start_button] [det_start_button] eq_refl))).
    reflexivity.
  - destruct (proj2 (proj2 (update_cooldown_gate unit SimpleStrategy_init 1000
                (2001 # 2) tt tt [det_start_button] [det_start_button] eq_refl)))
      as [decision [H1 [H2 _]]].
    + discriminate.
    + exists decision. split; assumption.
Defined.

(** ** The randomized tap *)

Lemma randint_range (a b raw : Z) :
  a <= b -> a <= a + raw mod (b - a + 1) <= b.
Proof.
  intros Hab. pose proof (Z.mod_pos_bound raw (b - a + 1) ltac:(lia)). lia.
Qed.

Lemma random_randint_run (a b : Z) (w : World) :
  a <= b ->
  random_randint a b w =
  (inr (a + rng w (rng_pos w) mod (b - a + 1)), advance_rng w).
Proof.
  intros Hab. unfold random_randint.
  destruct (b <? a) eqn:E; [apply Z.ltb_lt in E; lia | reflexivity].
Qed.

(** What a tap of the Android controller does to the world: one click, at
    most two pixels away on each axis, then the sleep, or the failure
    message when the driver refuses the click. *)
Lemma AndroidController_tap_run (x y : Z) (duration : Q) (w : World) :
  exists jx jy,
    -2 <= jx <= 2 /\ -2 <= jy <= 2 /\
    fst (AndroidController_tap x y duration w) = inr tt /\
    trace (snd (AndroidController_tap x y duration w)) =
      (trace w ++
       [EvDevice (DevClick (x + jx) (y + jy));
        if driver_fails w (DevClick (x + jx) (y + jy))
        then EvPrint (MsgTapFailed x y DriverError)
        else EvSleep duration])%list.
Proof.
  exists (-2 + rng w (rng_pos w) mod (2 - -2 + 1)),
         (-2 + rng w (S (rng_pos w)) mod (2 - -2 + 1)).
  split; [apply randint_range; lia|]. split; [apply randint_range; lia|].
  unfold AndroidController_tap, try_except, bind, random_randint, device_call,
    time_sleep, print.
  simpl.
  destruct (driver_fails w _); simpl; rewrite <- app_assoc; auto.
Qed.

Lemma IOSController_tap_run (x y : Z) (duration : Q) (w : World) :
  fst (IOSController_tap x y duration w) = inr tt /\
  trace (snd (IOSController_tap x y duration w)) =
    (trace w ++
     [EvDevice (DevClick x y);
      if driver_fails w (DevClick x y)
      then EvPrint (MsgTapFailed x y DriverError)
      else EvSleep duration])%list.
Proof.
  unfold IOSController_tap, try_except, bind, device_call, time_sleep, print.
  simpl.
  destruct (driver_fails w _); simpl; rewrite <- app_assoc; auto.
Qed.

(** The same for either controller, with the slack of the controller. *)
Lemma ControllerManager_tap_run (self : ControllerManager) (x y : Z)
    (duration : Q) (w : World) :
  exists x' y' last,
    x - controller_slack (controller self) <= x'
      <= x + controller_slack (controller self) /\
    y - controller_slack (controller self) <= y'
      <= y + controller_slack (controller self) /\
    (last = EvSleep duration \/ last = EvPrint (MsgTapFailed x y DriverError)) /\
    fst (ControllerManager_tap self x y duration w) = inr tt /\
    trace (snd (ControllerManager_tap self x y duration w)) =
      (trace w ++ [EvDevice (DevClick x' y'); last])%list.
Proof.
  unfold ControllerManager_tap. destruct (controller self); simpl.
  - destruct (AndroidController_tap_run x y duration w)
      as [jx [jy [Hx [Hy [Hres Htrace]]]]].
    eexists (x + jx), (y + jy), _.
    split; [lia|]. split; [lia|]. split; [|split; [exact Hres | exact Htrace]].
    destruct (driver_fails w _); auto.
  - destruct (IOSController_tap_run x y duration w) as [Hres Htrace].
    eexists x, y, _.
    split; [lia|]. split; [lia|]. split; [|split; [exact Hres | exact Htrace]].
    destruct (driver_fails w _); auto.
Qed.

Lemma tap_random_run (self : ControllerManager) (x y radius : Z) (duration : Q)
    (w : World) :
  0 <= radius ->
  exists offset_x offset_y,
    - radius <= offset_x <= radius /\
    - radius <= offset_y <= radius /\
    tap_random self x y radius duration w =
    ControllerManager_tap self (x + offset_x) (y + offset_y) duration
      (advance_rng (advance_rng w)).
Proof.
  intros Hr.
  exists (- radius + rng w (rng_pos w) mod (radius - - radius + 1)),
         (- radius + rng w (S (rng_pos w)) mod (radius - - radius + 1)).
  split; [apply randint_range; lia|]. split; [apply randint_range; lia|].
  unfold tap_random, bind.
  rewrite random_randint_run by lia.
  rewrite random_randint_run by lia. reflexivity.
Qed.

(** The whole effect of [tap_random] on the trace. *)
Lemma tap_random_trace (self : ControllerManager) (x y radius : Z)
    (duration : Q) (w : World) :
  0 <= radius ->
  exists offset_x offset_y x' y' last,
    (- radius <= offset_x <= radius /\ - radius <= offset_y <= radius) /\
    tap_random self x y radius duration w =
      ControllerManager_tap self (x + offset_x) (y + offset_y) duration
        (advance_rng (advance_rng w)) /\
    fst (tap_random self x y radius duration w) = inr tt /\
    trace (snd (tap_random self x y radius duration w)) =
      (trace w ++ [EvDevice (DevClick x' y'); last])%list /\
    (last = EvSleep duration \/
     last = EvPrint (MsgTapFailed (x + offset_x) (y + offset_y) DriverError)) /\
    x + offset_x - controller_slack (controller self) <= x'
      <= x + offset_x + controller_slack (controller self) /\
    y + offset_y - controller_slack (controller self) <= y'
      <= y + offset_y + controller_slack (controller self).
Proof.
  intros Hr.
  destruct (tap_random_run self x y radius duration w Hr)
    as [ox [oy [Hox [Hoy Hrun]]]].
  destruct (ControllerManager_tap_run self (x + ox) (y + oy) duration
              (advance_rng (advance_rng w)))
    as [x' [y' [last [Hx [Hy [Hlast [Hres Htrace]]]]]]].
  exists ox, oy, x', y', last.
  split; [auto|]. split; [exact Hrun|]. rewrite Hrun.
  split; [exact Hres|]. split; [exact Htrace|].
  split; [exact Hlast|]. split; assumption.
Qed.




(** ** Executing the decisions of the reference policy *)

Lemma _execute_action_wait (bot : GameBot) (w : World) :
  _execute_action bot wait_decision w = (inr tt, w).
Proof. reflexivity. Qed.

Lemma _execute_action_tap (bot : GameBot) (cx cy : Z) :
  _execute_action bot (tap_decision cx cy) =
  bind (tap_random (bot_controller bot) cx cy default_radius default_tap_duration)
       (fun _ => logger DEBUG (MsgTapExecuted cx cy)).
Proof.
  unfold _execute_action.
  destruct (tap_decision_params cx cy) as [Ha [params [Hp [Hx Hy]]]].
  rewrite Ha, Hp. cbn [default from_option id action_is].
  change ("tap" =? "tap")%string with true. cbn iota.
  rewrite Hx, Hy. reflexivity.
Qed.

(** C10: whatever the frame, the detections and the state, the decision of
    the reference policy is a non-empty dictionary which is either the wait
    decision or a tap carrying both x and y; it is never a swipe, and
    executing it never logs the warning of the unknown-action branch. *)
Theorem make_decision_tap_or_wait :
  forall (F : Type) (self : SimpleStrategy) (frame : F)
         (detections : list Detection) (state : GameState)
         (bot : GameBot) (w : World),
    let decision := make_decision self frame detections state in
    decision_truthy decision = true /\
    (decision = mkDecision (Some "wait") (Some ∅) \/
     exists (x y : Z) (params : gmap string Z),
       decision = mkDecision (Some "tap") (Some params) /\
       params !! "x" = Some x /\ params !! "y" = Some y) /\
    d_action decision <> Some "swipe" /\
    exists events,
      trace (snd (_execute_action bot decision w)) = (trace w ++ events)%list /\
      Forall (fun e => match e with
                       | EvLog WARNING _ => False
                       | _ => True
                       end) events.
Proof.
  intros F self frame detections state bot w decision.
  split; [apply make_decision_truthy|].
  destruct (make_decision_shape F self frame detections state)
    as [Hd | [cx [cy Hd]]]; fold decision in Hd; rewrite Hd.
  - split; [left; reflexivity|]. split; [discriminate|].
    exists []. rewrite _execute_action_wait. simpl.
    split; [by rewrite app_nil_r | constructor].
  - split.
    { right. destruct (tap_decision_params cx cy) as [_ [params [Hp [Hx Hy]]]].
      exists cx, cy, params. split; [|auto].
      unfold tap_decision in *. simpl in Hp. by inversion Hp. }
    split; [discriminate|].
    rewrite _execute_action_tap. unfold bind.
    destruct (tap_random_trace (bot_controller bot) cx cy
                default_radius default_tap_duration w)
      as [ox [oy [x' [y' [last [_ [_ [Hres [Htrace [Hlast _]]]]]]]]]].
    { unfold default_radius. lia. }
    destruct (tap_random (bot_controller bot) cx cy default_radius
                default_tap_duration w) as [[e | []] w1]; simpl in *;
      [discriminate|].
    exists [EvDevice (DevClick x' y'); last; EvLog DEBUG (MsgTapExecuted cx cy)].
    rewrite Htrace, <- app_assoc. split; [reflexivity|].
    destruct Hlast as [-> | ->]; repeat constructor.
Qed.

(** ** The smooth swipe *)








(** ** The frame loop *)

(** C8: a pass of the loop whose frame fetch returns no frame logs the
    warning, sleeps half a second and ends: the detector is not run, the
    policy is not updated, nothing is dispatched and the frame counter is not
    incremented (the bot and the loop's local state are unchanged and the
    trace grows by the warning and the sleep only); the loop goes on with its
    next pass. *)
Theorem null_frame_is_skipped :
  forall (fuel : nat) (frame_time : Q) (bot : GameBot) (last_time : Q)
         (w : World),
    is_running bot = true ->
    frames w (frame_pos w) = None ->
    let w' :=
      emit (EvSleep (1 # 2))
        (emit (EvLog WARNING MsgFrameFetchFailed)
           (advance_frames (advance_clock w))) in
    run_iteration frame_time bot last_time w = (inr (bot, last_time), w') /\
    trace w' =
      (trace w ++ [EvLog WARNING MsgFrameFetchFailed; EvSleep (1 # 2)])%list /\
    run_loop (S fuel) frame_time bot last_time w =
      run_loop fuel frame_time bot last_time w'.
Proof.
  intros fuel frame_time bot last_time w Hrun Hframe w'.
  assert (run_iteration frame_time bot last_time w = (inr (bot, last_time), w'))
    as Hiter.
  { unfold run_iteration, bind, time_time, get_frame. simpl.
    rewrite Hframe. reflexivity. }
  split; [exact Hiter|]. split.
  - subst w'. simpl. by rewrite <- app_assoc.
  - simpl. rewrite Hrun. unfold bind. rewrite Hiter. reflexivity.
Qed.

Lemma null_frame_is_skipped_witness :
  run_loop 3 (1 # 30) sample_bot 0 (sample_world far_draws (fun _ => None)) =
  run_loop 2 (1 # 30) sample_bot 0
    (emit (EvSleep (1 # 2))
       (emit (EvLog WARNING MsgFrameFetchFailed)
          (advance_frames (advance_clock
             (sample_world far_draws (fun _ => None)))))).
Proof.
  apply (proj2 (proj2 (null_frame_is_skipped 2 (1 # 30) sample_bot 0
           (sample_world far_draws (fun _ => None)) eq_refl eq_refl))).
Defined.

(** ** Construction and use of the detector *)

(** C9: constructing the detector raises an error when the lowered suffix of
    the model path is neither ".pt" nor ".onnx", and when the suffix is one
    of the two and the file does not exist; for an existing file with one of
    the two suffixes the construction reaches the loader of that format and
    returns what the loader returns; and [detect] on a detector whose model
    is [None] raises an error. *)
Theorem detector_construction_errors :
  forall (path : Path) (conf iou : Q) (gpu : bool) (w : World),
    let suffix := str_lower (path_suffix path) in
    let loading := emit (EvPrint (MsgLoadingModel (path_text path))) w in
    (suffix <> ".pt" -> suffix <> ".onnx" ->
     YOLODetector_init path conf iou gpu w = (inl ValueError, w)) /\
    (suffix = ".pt" \/ suffix = ".onnx" ->
     fs_exists w (path_text path) = false ->
     YOLODetector_init path conf iou gpu w = (inl FileNotFoundError, w)) /\
    (suffix = ".pt" -> fs_exists w (path_text path) = true ->
     YOLODetector_init path conf iou gpu w =
       match load_ultralytics w (path_text path) with
       | inl e => (inl e, loading)
       | inr m =>
           (inr (mkYOLODetector path conf iou gpu (Some m) (model_names m)
                   ultralytics),
            emit (EvPrint (MsgModelLoaded (model_names m))) loading)
       end) /\
    (suffix = ".onnx" -> fs_exists w (path_text path) = true ->
     YOLODetector_init path conf iou gpu w =
       match load_onnx w (path_text path) with
       | inl e => (inl e, loading)
       | inr m =>
           (inr (mkYOLODetector path conf iou gpu (Some m) [] onnx),
            emit (EvPrint (MsgModelLoaded [])) loading)
       end) /\
    (forall (self : YOLODetector) (image : Frame)
            (filter_classes : option (list string)),
        model self = None ->
        detect self image filter_classes w = (inl RuntimeError, w)).
Proof.
  intros path conf iou gpu w suffix loading.
  unfold YOLODetector_init, _detect_model_type, bind, ret, raise.
  fold suffix.
  split; [|split; [|split; [|split]]].
  - intros Hpt Honnx.
    apply String.eqb_neq in Hpt, Honnx. by rewrite Hpt, Honnx.
  - intros [Hs | Hs] Hmissing; rewrite Hs; simpl;
      unfold _load_model, bind, path_exists; simpl; by rewrite Hmissing.
  - intros Hs Hpresent. rewrite Hs. simpl.
    unfold _load_model, bind, path_exists, _load_ultralytics_model, print, ret.
    simpl. rewrite Hpresent. simpl.
    by destruct (load_ultralytics w (path_text path)).
  - intros Hs Hpresent. rewrite Hs. simpl.
    unfold _load_model, bind, path_exists, _load_onnx_model, print, ret.
    simpl. rewrite Hpresent. simpl.
    by destruct (load_onnx w (path_text path)).
  - intros self image filter_classes Hnone. unfold detect.
    by rewrite Hnone.
Qed.

Lemma detector_construction_errors_witness :
  YOLODetector_init (mkPath "models/best.txt" ".txt") (25 # 100) (45 # 100) true
    (sample_world far_draws (fun _ => None)) =
    (inl ValueError, sample_world far_draws (fun _ => None)) /\
  YOLODetector_init (mkPath "models/best.PT" ".PT") (25 # 100) (45 # 100) true
    (sample_world far_draws (fun _ => None)) =
    (inl FileNotFoundError, sample_world far_draws (fun _ => None)).
Proof.
  split.
  - apply (proj1 (detector_construction_errors
             (mkPath "models/best.txt" ".txt") (25 # 100) (45 # 100) true
             (sample_world far_draws (fun _ => None)))); discriminate.
  - apply (proj1 (proj2 (detector_construction_errors
             (mkPath "models/best.PT" ".PT") (25 # 100) (45 # 100) true
             (sample_world far_draws (fun _ => None)))));
      [left; reflexivity | reflexivity].
Defined.

(** * Further properties of the policy module *)

(** ** State classification for any indicator table *)

Lemma scan_states_first_match (detections : list Detection)
    (items : list (GameState * list string)) :
  (Forall (fun item => scan_indicators detections (snd item) = false) items /\
   scan_states detections items = UNKNOWN) \/
  (exists indicators,
      In (scan_states detections items, indicators) items /\
      scan_indicators detections indicators = true).
Proof.
  induction items as [|[s inds] rest IH]; simpl.
  - left. split; [constructor | reflexivity].
  - destruct (scan_indicators detections inds) eqn:E.
    + right. exists inds. auto.
    + destruct IH as [[Hnone Hres] | [inds' [Hin Hscan]]].
      * left. split; [constructor; assumption | exact Hres].
      * right. exists inds'. auto.
Qed.

Lemma indicated_scan (self : SimpleStrategy) (s : GameState)
    (detections : list Detection) :
  indicated self s detections <->
  exists indicators,
    In (s, indicators) (state_indicators self) /\
    scan_indicators detections indicators = true.
Proof.
  unfold indicated. split.
  - intros [inds [det [Hin [Hd Hc]]]]. exists inds. split; [exact Hin|].
    apply scan_indicators_In. eauto.
  - intros [inds [Hin Hscan]]. apply scan_indicators_In in Hscan as [det [Hd Hc]].
    eauto.
Qed.

(** X1: whatever the indicator table, [analyze_state] answers a state other
    than [unknown] only if that state is indicated by the detections; it
    answers [unknown] when no state is indicated; and when some state is
    indicated its answer is an indicated state. *)
Theorem analyze_state_sound_for_any_table :
  forall (F : Type) (self : SimpleStrategy) (frame : F)
         (detections : list Detection),
    let result := analyze_state self frame detections in
    (result <> UNKNOWN -> indicated self result detections) /\
    ((forall s, ~ indicated self s detections) -> result = UNKNOWN) /\
    (forall s, indicated self s detections -> indicated self result detections).
Proof.
  intros F self frame detections result. subst result. unfold analyze_state.
  destruct (scan_states_first_match detections (state_indicators self))
    as [[Hnone Hres] | [inds [Hin Hscan]]].
  - repeat split.
    + congruence.
    + intros _. exact Hres.
    + intros s Hs. apply indicated_scan in Hs as [inds [Hin Hscan]].
      rewrite List.Forall_forall in Hnone. specialize (Hnone _ Hin). simpl in Hnone.
      congruence.
  - assert (indicated self (scan_states detections (state_indicators self))
              detections) as Hind by (apply indicated_scan; eauto).
    repeat split.
    + intros _. exact Hind.
    + intros Hno. exfalso. exact (Hno _ Hind).
    + intros _ _. exact Hind.
Qed.

Lemma analyze_state_sound_for_any_table_witness :
  indicated battle_only_strategy
    (analyze_state battle_only_strategy tt [det_start_button; det_enemy])
    [det_start_button; det_enemy].
Proof.
  apply (proj1 (analyze_state_sound_for_any_table unit battle_only_strategy tt
                  [det_start_button; det_enemy])).
  discriminate.
Defined.

Lemma has_detection_class_names (detections : list Detection) (cls : string) :
  has_detection detections cls = true <->
  In cls (List.map class_name detections).
Proof.
  rewrite has_detection_In, in_map_iff.
  split; intros [det [H1 H2]]; exists det; auto.
Qed.

Lemma scan_states_class_names (l1 l2 : list Detection)
    (items : list (GameState * list string)) :
  (forall cls, In cls (List.map class_name l1) <->
               In cls (List.map class_name l2)) ->
  scan_states l1 items = scan_states l2 items.
Proof.
  intros Hsame.
  assert (forall cls, has_detection l1 cls = has_detection l2 cls) as Hhas.
  { intros cls. apply eq_true_iff_eq.
    rewrite !has_detection_class_names. apply Hsame. }
  assert (forall inds, scan_indicators l1 inds = scan_indicators l2 inds) as Hscan.
  { induction inds as [|c rest IH]; simpl; [reflexivity|].
    by rewrite Hhas, IH. }
  induction items as [|[s inds] rest IH]; simpl; [reflexivity|].
  by rewrite Hscan, IH.
Qed.

(** X2: the state [analyze_state] answers depends only on which class names
    occur among the detections: not on the frame, on the order of the
    detections, on their number, confidence or position.  Two lists with the
    same class names, for instance a list and a permutation of it, get the
    same state. *)
Theorem analyze_state_depends_on_class_names_only :
  forall (F G : Type) (self : SimpleStrategy) (frame1 : F) (frame2 : G)
         (l1 l2 : list Detection),
    ((forall cls, In cls (List.map class_name l1) <->
                  In cls (List.map class_name l2)) ->
     analyze_state self frame1 l1 = analyze_state self frame2 l2) /\
    (Permutation l1 l2 ->
     analyze_state self frame1 l1 = analyze_state self frame2 l2).
Proof.
  intros F G self frame1 frame2 l1 l2. unfold analyze_state. split.
  - apply scan_states_class_names.
  - intros Hperm. apply scan_states_class_names. intros cls.
    split; apply Permutation_in; [|symmetry]; by apply Permutation_map.
Qed.

Lemma analyze_state_depends_on_class_names_only_witness :
  analyze_state SimpleStrategy_init tt [det_enemy; det_start_button] =
  analyze_state SimpleStrategy_init 0%nat
    [det_start_button; det_enemy; det_enemy].
Proof.
  apply (proj1 (analyze_state_depends_on_class_names_only unit nat
                  SimpleStrategy_init tt 0%nat [det_enemy; det_start_button]
                  [det_start_button; det_enemy; det_enemy])).
  intros cls. simpl. tauto.
Defined.

(** ** The handlers *)

(** X3: in state battle the policy taps the centre of the first "enemy"
    detection whenever there is one, whatever skill buttons are detected;
    without an enemy it taps the centre of the first "skill_button"; with
    neither it waits. *)
Theorem battle_prefers_enemy_over_skill :
  forall (F : Type) (self : SimpleStrategy) (frame : F)
         (detections : list Detection),
    (forall before enemy after,
        detections = (before ++ enemy :: after)%list ->
        Forall (fun det => class_name det <> "enemy") before ->
        class_name enemy = "enemy" ->
        make_decision self frame detections BATTLE =
          tap_decision (fst (center enemy)) (snd (center enemy))) /\
    (forall before skill after,
        (forall det, In det detections -> class_name det <> "enemy") ->
        detections = (before ++ skill :: after)%list ->
        Forall (fun det => class_name det <> "skill_button") before ->
        class_name skill = "skill_button" ->
        make_decision self frame detections BATTLE =
          tap_decision (fst (center skill)) (snd (center skill))) /\
    ((forall det, In det detections ->
                  class_name det <> "enemy" /\
                  class_name det <> "skill_button") ->
     make_decision self frame detections BATTLE = wait_decision).
Proof.
  intros F self frame detections. simpl. unfold _handle_battle.
  split; [|split].
  - intros before enemy after Hdets Hbefore Henemy. rewrite Hdets.
    rewrite (get_detections_by_class_first _ _ _ _ Hbefore Henemy).
    by destruct (center enemy).
  - intros before skill after Hnone Hdets Hbefore Hskill.
    rewrite (get_detections_by_class_none _ _ Hnone). rewrite Hdets.
    rewrite (get_detections_by_class_first _ _ _ _ Hbefore Hskill).
    by destruct (center skill).
  - intros Hnone.
    rewrite (get_detections_by_class_none "enemy" detections)
      by (intros det Hin; apply (Hnone det Hin)).
    rewrite (get_detections_by_class_none "skill_button" detections)
      by (intros det Hin; apply (Hnone det Hin)).
    reflexivity.
Qed.

Lemma battle_prefers_enemy_over_skill_witness :
  make_decision SimpleStrategy_init tt
    [mkDetection 3 "skill_button" (9 # 10) (0, 0, 20, 20) (10, 10); det_enemy]
    BATTLE = tap_decision 30 30.
Proof.
  refine (proj1 (battle_prefers_enemy_over_skill unit SimpleStrategy_init tt _)
            [mkDetection 3 "skill_button" (9 # 10) (0, 0, 20, 20) (10, 10)]
            det_enemy [] eq_refl _ eq_refl).
  repeat constructor. discriminate.
Defined.

(** X4: in state reward the policy taps the centre of the first
    "claim_button" detection and waits when there is none, also when a
    "reward_icon", which indicates the state, is detected. *)
Theorem reward_taps_first_claim_button :
  forall (F : Type) (self : SimpleStrategy) (frame : F)
         (detections : list Detection),
    (forall before button after,
        detections = (before ++ button :: after)%list ->
        Forall (fun det => class_name det <> "claim_button") before ->
        class_name button = "claim_button" ->
        make_decision self frame detections REWARD =
          tap_decision (fst (center button)) (snd (center button))) /\
    ((forall det, In det detections -> class_name det <> "claim_button") ->
     make_decision self frame detections REWARD = wait_decision).
Proof.
  intros F self frame detections. simpl. unfold _handle_reward. split.
  - intros before button after Hdets Hbefore Hbutton. rewrite Hdets.
    rewrite (get_detections_by_class_first _ _ _ _ Hbefore Hbutton).
    by destruct (center button).
  - intros Hnone. by rewrite (get_detections_by_class_none _ _ Hnone).
Qed.

Lemma reward_taps_first_claim_button_witness :
  analyze_state SimpleStrategy_init tt
    [mkDetection 4 "reward_icon" (9 # 10) (0, 0, 20, 20) (10, 10)] = REWARD /\
  make_decision SimpleStrategy_init tt
    [mkDetection 4 "reward_icon" (9 # 10) (0, 0, 20, 20) (10, 10)] REWARD =
    wait_decision.
Proof.
  split; [reflexivity|].
  apply (proj2 (reward_taps_first_claim_button unit SimpleStrategy_init tt
                  [mkDetection 4 "reward_icon" (9 # 10) (0, 0, 20, 20) (10, 10)])).
  intros det [<- | []]. discriminate.
Defined.

Lemma get_detections_by_class_head (detections : list Detection) (cls : string)
    (det : Detection) (rest : list Detection) :
  get_detections_by_class detections cls = det :: rest ->
  In det detections /\ class_name det = cls.
Proof.
  intros Hget.
  assert (In det (get_detections_by_class detections cls)) as Hin
    by (rewrite Hget; simpl; auto).
  unfold get_detections_by_class in Hin. apply filter_In in Hin as [Hin Hc].
  split; [exact Hin | by apply String.eqb_eq].
Qed.

Lemma tap_decision_not_wait (cx cy : Z) : tap_decision cx cy <> wait_decision.
Proof. discriminate. Qed.

(** X5: the policy only ever taps what the detector found: a decision of
    [make_decision] is the wait decision, or a tap at the centre of one of
    the given detections, of class "start_button", "enemy", "skill_button" or
    "claim_button".  When no detection has one of these four classes the
    decision is to wait, in every state. *)
Theorem make_decision_taps_a_detection :
  forall (F : Type) (self : SimpleStrategy) (frame : F)
         (detections : list Detection) (state : GameState),
    let tappable := ["start_button"; "enemy"; "skill_button"; "claim_button"] in
    (make_decision self frame detections state = wait_decision \/
     exists det,
       In det detections /\ In (class_name det) tappable /\
       make_decision self frame detections state =
         tap_decision (fst (center det)) (snd (center det))) /\
    ((forall det, In det detections -> ~ In (class_name det) tappable) ->
     make_decision self frame detections state = wait_decision).
Proof.
  intros F self frame detections state tappable.
  assert (make_decision self frame detections state = wait_decision \/
          exists det,
            In det detections /\ In (class_name det) tappable /\
            make_decision self frame detections state =
              tap_decision (fst (center det)) (snd (center det))) as Hshape.
  { destruct state; simpl; auto;
      unfold _handle_menu, _handle_battle, _handle_reward;
      repeat match goal with
      | |- context [match get_detections_by_class ?l ?c with _ => _ end] =>
          let E := fresh "E" in
          destruct (get_detections_by_class l c) as [|? ?] eqn:E;
          [|apply get_detections_by_class_head in E as [? ?]]
      end; auto;
      right; eexists; (split; [eassumption|]);
      (split; [match goal with
               | H : class_name _ = _ |- _ => rewrite H
               end; subst tappable; simpl; tauto|]);
      by destruct (center _). }
  split; [exact Hshape|].
  intros Hnone. destruct Hshape as [Hw | [det [Hin [Hc _]]]]; [exact Hw|].
  exfalso. exact (Hnone det Hin Hc).
Qed.

Lemma make_decision_taps_a_detection_witness :
  make_decision SimpleStrategy_init tt [det_menu_bg] MENU = wait_decision.
Proof.
  apply (proj2 (make_decision_taps_a_detection unit SimpleStrategy_init tt
                  [det_menu_bg] MENU)).
  intros det [<- | []]. simpl.
  intros [H | [H | [H | [H | []]]]]; discriminate.
Defined.

(** ** Runs of [update] *)

Lemma update_cases (F : Type) (self : SimpleStrategy) (t : Q) (frame : F)
    (detections : list Detection) :
  let r := update self t frame detections in
  frame_count (snd r) = frame_count self + 1 /\
  action_cooldown (snd r) = action_cooldown self /\
  state_indicators (snd r) = state_indicators self /\
  ((fst r = None /\ last_action_time (snd r) = last_action_time self) \/
   (exists decision,
       fst r = Some decision /\ last_action_time (snd r) = t /\
       (action_cooldown self <= t - last_action_time self)%Q)).
Proof.
  unfold update. simpl.
  destruct (Qltb (t - last_action_time self) (action_cooldown self)) eqn:Hgate.
  - simpl. repeat split. left. split; reflexivity.
  - rewrite make_decision_truthy. simpl.
    repeat split. right. eexists. split; [reflexivity|]. split; [reflexivity|].
    by apply Qltb_ge.
Qed.

Lemma last_cons_default (A : Type) (l : list A) (a d : A) :
  List.last (a :: l) d = List.last l a.
Proof.
  revert a d. induction l as [|b rest IH]; intros a d; [reflexivity|].
  change (List.last (a :: b :: rest) d) with (List.last (b :: rest) d).
  rewrite IH. symmetry. apply IH.
Qed.

(** X6: over any run of calls of [update] on one policy object, whatever the
    clock readings, two consecutive emitted decisions are at least the
    cooldown apart, and the first one at least the cooldown after the initial
    last-action timestamp; the object ends with the timestamp of the last
    emitted decision, an unchanged cooldown, and a frame counter advanced by
    the number of calls, suppressed or not. *)
Theorem update_all_spaces_decisions :
  forall (F : Type) (calls : list (Q * F * list Detection))
         (self : SimpleStrategy),
    let run := update_all self calls in
    Sorted (fun a b => (action_cooldown self <= b - a)%Q)
      (last_action_time self :: emitted_times (fst run)) /\
    last_action_time (snd run) =
      List.last (emitted_times (fst run)) (last_action_time self) /\
    action_cooldown (snd run) = action_cooldown self /\
    frame_count (snd run) = frame_count self + Z.of_nat (length calls) /\
    List.map fst (fst run) = List.map (fun call => fst (fst call)) calls.
Proof.
  intros F calls. induction calls as [|[[t frame] detections] rest IH];
    intros self run.
  - subst run. simpl. repeat split; try lia. repeat constructor.
  - subst run. simpl.
    pose proof (update_cases F self t frame detections) as Hup.
    destruct (update self t frame detections) as [answer self1]. simpl in Hup.
    destruct Hup as [Hfc [Hcd [_ Hlast]]].
    specialize (IH self1). simpl in IH.
    destruct (update_all self1 rest) as [answers self2]. simpl in *.
    destruct IH as [Hsorted [Hl [Hc [Hf Hm]]]].
    rewrite Hcd in Hsorted, Hc. rewrite Hfc in Hf.
    split; [|split; [|split; [|split]]]; try congruence; try lia.
    + destruct Hlast as [[-> Hsame] | [decision [-> [Hnow Hgap]]]];
        unfold emitted_times in *; simpl.
      * rewrite Hsame in Hsorted. exact Hsorted.
      * rewrite Hnow in Hsorted. constructor; [exact Hsorted|].
        constructor. exact Hgap.
    + destruct Hlast as [[-> Hsame] | [decision [-> [Hnow Hgap]]]];
        unfold emitted_times in *; simpl.
      * rewrite Hl, Hsame. reflexivity.
      * rewrite Hl, Hnow. symmetry. apply last_cons_default.
Qed.

(** ** The state-machine policy *)

Lemma _update_state_history_length (self : StateMachineStrategy)
    (state : GameState) :
  Z.of_nat (length (state_history self)) <= max_history self ->
  Z.of_nat (length (state_history (_update_state_history self state)))
    <= max_history self.
Proof.
  intros Hlen. unfold _update_state_history. simpl.
  rewrite length_app. simpl.
  destruct (max_history self <? Z.of_nat (length (state_history self) + 1)) eqn:E.
  - apply Z.ltb_lt in E.
    destruct (state_history self) as [|s rest]; simpl in *; [lia|].
    rewrite length_app. simpl. lia.
  - apply Z.ltb_ge in E. rewrite length_app. simpl. lia.
Qed.

(** X7: [_update_state_history] keeps the history within [max_history]: a
    history that is not longer than [max_history] is not longer than it
    afterwards.  The new history is the old one with the state appended and
    at most one entry, the oldest, dropped; and with a [max_history] of at
    least one the state just recorded is its last entry. *)
Theorem state_history_stays_bounded :
  forall (self : StateMachineStrategy) (state : GameState),
    let after := _update_state_history self state in
    (Z.of_nat (length (state_history self)) <= max_history self ->
     Z.of_nat (length (state_history after)) <= max_history after) /\
    (exists dropped,
        (state_history self ++ [state])%list =
          (dropped ++ state_history after)%list /\
        (length dropped <= 1)%nat) /\
    (1 <= max_history self ->
     exists older, state_history after = (older ++ [state])%list).
Proof.
  intros self state after. split; [|split].
  - intros Hlen. exact (_update_state_history_length self state Hlen).
  - subst after. unfold _update_state_history. simpl.
    destruct (max_history self <? _).
    + destruct (state_history self) as [|s rest]; simpl.
      * exists [state]. split; [reflexivity | simpl; lia].
      * exists [s]. split; [reflexivity | simpl; lia].
    + exists []. split; [reflexivity | simpl; lia].
  - intros Hmax. subst after. unfold _update_state_history. simpl.
    destruct (max_history self <? _) eqn:E.
    + apply Z.ltb_lt in E. rewrite length_app in E. simpl in E.
      destruct (state_history self) as [|s rest]; simpl in *; [lia|].
      exists rest. reflexivity.
    + exists (state_history self). reflexivity.
Qed.

Lemma state_history_stays_bounded_witness :
  Z.of_nat (length (state_history
     (_update_state_history
        (set_state_history (repeat MENU 10) StateMachineStrategy_init) BATTLE)))
    <= 10.
Proof.
  apply (proj1 (state_history_stays_bounded
                  (set_state_history (repeat MENU 10) StateMachineStrategy_init)
                  BATTLE)).
  simpl. lia.
Defined.

(** X8: through [update] the state-machine policy always ends in state
    [unknown]; a call suppressed by the cooldown returns no decision and
    records nothing in the history; a call that is not suppressed returns the
    wait decision, appends [unknown] to the history (within its bound) and
    stamps the call's clock reading. *)
Theorem sm_update_records_unsuppressed_calls :
  forall (F : Type) (self : StateMachineStrategy) (now : Q) (frame : F)
         (detections : list Detection),
    let result := sm_update self now frame detections in
    sm_current_state (snd result) = UNKNOWN /\
    sm_frame_count (snd result) = sm_frame_count self + 1 /\
    ((now - sm_last_action_time self < sm_action_cooldown self)%Q ->
     fst result = None /\
     state_history (snd result) = state_history self /\
     sm_last_action_time (snd result) = sm_last_action_time self) /\
    ((sm_action_cooldown self <= now - sm_last_action_time self)%Q ->
     fst result = Some wait_decision /\
     state_history (snd result) =
       state_history (_update_state_history self UNKNOWN) /\
     sm_last_action_time (snd result) = now) /\
    (Z.of_nat (length (state_history self)) <= max_history self ->
     Z.of_nat (length (state_history (snd result)))
       <= max_history (snd result)).
Proof.
  intros F self now frame detections result. subst result.
  unfold sm_update, sm_make_decision, sm_analyze_state. simpl.
  destruct (Qltb (now - sm_last_action_time self) (sm_action_cooldown self))
    eqn:Hgate; simpl.
  - split; [reflexivity|]. split; [reflexivity|]. split; [auto|]. split.
    + intros Hge. apply Qltb_ge in Hge. congruence.
    + auto.
  - split; [reflexivity|]. split; [reflexivity|]. split.
    + intros Hlt. apply Qltb_lt in Hlt. congruence.
    + split; [auto|]. intros Hlen.
      apply (_update_state_history_length
               (mkStateMachineStrategy (sm_name self) UNKNOWN
                  (sm_frame_count self + 1) (sm_last_action_time self)
                  (sm_action_cooldown self) (transitions self)
                  (state_history self) (max_history self)) UNKNOWN Hlen).
Qed.

Lemma sm_update_records_unsuppressed_calls_witness :
  fst (sm_update StateMachineStrategy_init (1 # 4) tt [det_enemy]) = None /\
  state_history (snd (sm_update StateMachineStrategy_init (1 # 4) tt [det_enemy]))
    = [] /\
  state_history (snd (sm_update StateMachineStrategy_init 1000 tt [det_enemy]))
    = [UNKNOWN].
Proof.
  destruct (sm_update_records_unsuppressed_calls unit StateMachineStrategy_init
              (1 # 4) tt [det_enemy]) as [_ [_ [Hsup _]]].
  destruct (sm_update_records_unsuppressed_calls unit StateMachineStrategy_init
              1000 tt [det_enemy]) as [_ [_ [_ [Hrec _]]]].
  destruct (Hsup eq_refl) as [H1 [H2 _]].
  destruct Hrec as [_ [H3 _]]; [discriminate|].
  split; [exact H1|]. split; [exact H2 | exact H3].
Defined.

(** * Further properties of the actuator module *)

Lemma emit_all_trace (events : list Event) (w : World) :
  trace (emit_all events w) = (trace w ++ events)%list.
Proof.
  revert w. induction events as [|e rest IH]; intros w; simpl.
  - by rewrite app_nil_r.
  - unfold emit_all in IH. rewrite IH. simpl. by rewrite <- app_assoc.
Qed.

Lemma emit_all_driver (events : list Event) (w : World) :
  driver_fails (emit_all events w) = driver_fails w.
Proof.
  revert w. induction events as [|e rest IH]; intros w; simpl; [reflexivity|].
  unfold emit_all in IH. by rewrite IH.
Qed.

Lemma emit_all_rng_pos (events : list Event) (w : World) :
  rng_pos (emit_all events w) = rng_pos w.
Proof.
  revert w. induction events as [|e rest IH]; intros w; simpl; [reflexivity|].
  unfold emit_all in IH. by rewrite IH.
Qed.

Lemma device_calls_app (l1 l2 : list Event) :
  device_calls (l1 ++ l2) = (device_calls l1 ++ device_calls l2)%list.
Proof.
  induction l1 as [|e rest IH]; simpl; [reflexivity|].
  destruct e; simpl; by rewrite IH.
Qed.

Lemma device_calls_map_events (A : Type) (f : A -> DeviceCall) (l : list A) :
  device_calls (List.map (fun a => EvDevice (f a)) l) = List.map f l.
Proof. induction l as [|a rest IH]; simpl; [reflexivity | by rewrite IH]. Qed.

Lemma device_calls_map (calls : list DeviceCall) :
  device_calls (List.map EvDevice calls) = calls.
Proof. induction calls as [|c rest IH]; simpl; [reflexivity | by rewrite IH]. Qed.

(** ** The path of a smooth swipe *)

Lemma py_int_of_integer (q : Q) (z : Z) : (q == inject_Z z)%Q -> py_int q = z.
Proof.
  unfold Qeq, py_int, inject_Z. simpl. intros H.
  rewrite Z.mul_1_r in H. rewrite H. apply Z.quot_mul. lia.
Qed.

Lemma bezier_at_start (steps : Z) (p0 pc p1 : Q) :
  (bezier (inject_Z 0 / inject_Z steps) p0 pc p1 == p0)%Q.
Proof.
  unfold bezier.
  assert (inject_Z 0 / inject_Z steps == 0)%Q as ->
    by (unfold Qdiv; change (inject_Z 0) with 0%Q; ring).
  simpl. ring.
Qed.

Lemma bezier_at_end (steps : Z) (p0 pc p1 : Q) :
  steps <> 0 ->
  (bezier (inject_Z steps / inject_Z steps) p0 pc p1 == p1)%Q.
Proof.
  intros Hsteps. unfold bezier.
  assert (inject_Z steps / inject_Z steps == 1)%Q as ->.
  { unfold Qdiv. apply Qmult_inv_r. intros H. apply Hsteps.
    unfold Qeq in H. simpl in H. lia. }
  simpl. ring.
Qed.

Lemma py_range_succ (n : Z) :
  0 <= n -> py_range (n + 1) = (py_range n ++ [n])%list.
Proof.
  intros Hn. unfold py_range.
  replace (Z.to_nat (n + 1)) with (S (Z.to_nat n)) by lia.
  rewrite seq_S, map_app. simpl. by rewrite Z2Nat.id.
Qed.

Lemma py_range_head (n : Z) :
  0 < n -> exists rest, py_range n = 0 :: rest.
Proof.
  intros Hn. unfold py_range.
  destruct (Z.to_nat n) as [|k] eqn:E; [lia|]. simpl. eauto.
Qed.

Lemma bezier_points_length (start_x start_y end_x end_y : Z)
    (control_x control_y : Q) (steps : Z) :
  length (bezier_points start_x start_y end_x end_y control_x control_y steps)
  = Z.to_nat (steps + 1).
Proof.
  unfold bezier_points. rewrite length_map. unfold py_range.
  rewrite length_map. apply length_seq.
Qed.

(** X9: for a positive number of steps, whatever the control point, the
    path of a smooth swipe has one point more than it has steps, begins at
    the start point of the swipe and ends at its end point. *)
Theorem swipe_path_joins_endpoints :
  forall (start_x start_y end_x end_y : Z) (control_x control_y : Q)
         (steps : Z),
    0 < steps ->
    let points :=
      bezier_points start_x start_y end_x end_y control_x control_y steps in
    length points = Z.to_nat (steps + 1) /\
    hd_error points = Some (start_x, start_y) /\
    List.last points (0, 0) = (end_x, end_y).
Proof.
  intros sx sy ex ey cx cy steps Hsteps points. subst points.
  unfold bezier_points. split; [|split].
  - apply bezier_points_length.
  - destruct (py_range_head (steps + 1) ltac:(lia)) as [rest ->]. simpl.
    rewrite !(py_int_of_integer _ _ (bezier_at_start steps _ _ _)).
    reflexivity.
  - rewrite py_range_succ by lia. rewrite map_app. simpl.
    rewrite last_last.
    rewrite !(py_int_of_integer _ _ (bezier_at_end steps _ _ _ ltac:(lia))).
    reflexivity.
Qed.

Lemma swipe_path_joins_endpoints_witness :
  hd_error (bezier_points 10 20 300 400 (7 # 3) (-5 # 1) 4) = Some (10, 20) /\
  List.last (bezier_points 10 20 300 400 (7 # 3) (-5 # 1) 4) (0, 0) = (300, 400).
Proof.
  apply (proj2 (swipe_path_joins_endpoints 10 20 300 400 (7 # 3) (-5 # 1) 4
                  ltac:(lia))).
Defined.

Lemma swipe_segments_accepted (points : list (Z * Z)) (step_duration : Q)
    (w : World) :
  driver_accepts_all w ->
  swipe_segments points step_duration w =
  (inr tt,
   emit_all (List.map (fun s => EvDevice (segment_swipe step_duration s))
               (segments points)) w).
Proof.
  revert w. induction points as [|[x1 y1] rest IH]; intros w Hok;
    [reflexivity|].
  destruct rest as [|[x2 y2] rest']; [reflexivity|].
  change (swipe_segments ((x1, y1) :: (x2, y2) :: rest') step_duration w)
    with (bind (device_call (DevSwipe x1 y1 x2 y2 step_duration))
            (fun _ => swipe_segments ((x2, y2) :: rest') step_duration) w).
  unfold bind, device_call. rewrite Hok.
  rewrite IH by (intros call; apply Hok). reflexivity.
Qed.

Lemma segments_length (A : Type) (points : list A) :
  length (segments points) = Nat.pred (length points).
Proof.
  destruct points as [|p rest]; [reflexivity|].
  unfold segments. rewrite length_combine. cbn [tail length Nat.pred]. lia.
Qed.

Lemma swipe_smooth_run (start_x start_y end_x end_y : Z) (duration : Q)
    (steps : Z) (w : World) :
  steps <> 0 ->
  let rx := -50 + rng w (rng_pos w) mod (50 - -50 + 1) in
  let ry := -50 + rng w (S (rng_pos w)) mod (50 - -50 + 1) in
  (-50 <= rx <= 50 /\ -50 <= ry <= 50) /\
  swipe_smooth start_x start_y end_x end_y duration steps w =
    try_except
      (swipe_segments (swipe_points start_x start_y end_x end_y steps rx ry)
         (duration / inject_Z steps)%Q)
      (fun e => print (MsgSmoothSwipeFailed e))
      (advance_rng (advance_rng w)).
Proof.
  intros Hsteps rx ry. split.
  - split; apply randint_range; lia.
  - unfold swipe_smooth, try_except, bind.
    rewrite random_randint_run by lia.
    rewrite random_randint_run by lia.
    apply Z.eqb_neq in Hsteps. rewrite Hsteps. reflexivity.
Qed.



Lemma py_range_nonpositive (n : Z) : n <= 0 -> py_range n = [].
Proof.
  intros Hn. unfold py_range. by replace (Z.to_nat n) with 0%nat by lia.
Qed.

(** X11: a smooth swipe with no step sends nothing to the driver and
    returns normally: with zero steps the division by zero is caught and its
    failure message printed; with a negative number of steps the path is
    empty and nothing at all is recorded. *)
Theorem swipe_smooth_without_steps :
  forall (start_x start_y end_x end_y : Z) (duration : Q) (steps : Z)
         (w : World),
    steps <= 0 ->
    let result := swipe_smooth start_x start_y end_x end_y duration steps w in
    fst result = inr tt /\
    trace (snd result) =
      (trace w ++
       if steps =? 0 then [EvPrint (MsgSmoothSwipeFailed ZeroDivisionError)]
       else [])%list /\
    device_calls (trace (snd result)) = device_calls (trace w).
Proof.
  intros sx sy ex ey duration steps w Hsteps result.
  assert (fst result = inr tt /\
          trace (snd result) =
            (trace w ++
             if steps =? 0
             then [EvPrint (MsgSmoothSwipeFailed ZeroDivisionError)]
             else [])%list) as [Hres Htrace].
  { subst result. destruct (Z.eq_dec steps 0) as [-> | Hneg].
    - unfold swipe_smooth, try_except, bind.
      rewrite random_randint_run by lia.
      rewrite random_randint_run by lia. simpl. auto.
    - destruct (swipe_smooth_run sx sy ex ey duration steps w Hneg)
        as [_ Hrun].
      rewrite Hrun. unfold swipe_points, bezier_points.
      rewrite py_range_nonpositive by lia. simpl.
      apply Z.eqb_neq in Hneg. rewrite Hneg. by rewrite app_nil_r. }
  split; [exact Hres|]. split; [exact Htrace|].
  rewrite Htrace, device_calls_app.
  destruct (steps =? 0); simpl; by rewrite app_nil_r.
Qed.

Lemma swipe_smooth_without_steps_witness :
  trace (snd (swipe_smooth 0 0 100 0 (1 # 2) 0
                (sample_world far_draws (fun _ => None)))) =
  [EvPrint (MsgSmoothSwipeFailed ZeroDivisionError)].
Proof.
  apply (proj1 (proj2 (swipe_smooth_without_steps 0 0 100 0 (1 # 2) 0
                         (sample_world far_draws (fun _ => None))
                         ltac:(lia)))).
Defined.

(** ** Failures of the driver and of the arguments *)

Lemma try_except_print_returns (body : M unit) (message : Exn -> Message)
    (w : World) :
  fst (try_except body (fun e => print (message e)) w) = inr tt.
Proof.
  unfold try_except. destruct (body w) as [[e | []] w']; reflexivity.
Qed.

(** X12: no operation of the controller lets an exception escape: tap,
    swipe, long press and smooth swipe return normally on both platforms,
    whatever the driver does and whatever the number of steps.  A swipe or a
    tap that the driver refuses leaves the call and the failure message in
    the trace; the refused tap is not followed by its sleep. *)
Theorem driver_failures_are_contained :
  forall (self : ControllerManager) (x y x2 y2 : Z) (duration : Q)
         (steps : Z) (w : World),
    fst (ControllerManager_tap self x y duration w) = inr tt /\
    fst (ControllerManager_swipe self x y x2 y2 duration w) = inr tt /\
    fst (ControllerManager_long_press self x y duration w) = inr tt /\
    fst (ControllerManager_swipe_smooth self x y x2 y2 duration w) = inr tt /\
    fst (swipe_smooth x y x2 y2 duration steps w) = inr tt /\
    (driver_fails w (DevSwipe x y x2 y2 duration) = true ->
     trace (snd (ControllerManager_swipe self x y x2 y2 duration w)) =
       (trace w ++ [EvDevice (DevSwipe x y x2 y2 duration);
                    EvPrint (MsgSwipeFailed DriverError)])%list) /\
    (driver_fails w (DevClick x y) = true ->
     trace (snd (IOSController_tap x y duration w)) =
       (trace w ++ [EvDevice (DevClick x y);
                    EvPrint (MsgTapFailed x y DriverError)])%list).
Proof.
  intros self x y x2 y2 duration steps w.
  split; [|split; [|split; [|split; [|split; [|split]]]]].
  - unfold ControllerManager_tap.
    destruct (controller self); apply try_except_print_returns.
  - apply try_except_print_returns.
  - unfold ControllerManager_long_press.
    destruct (controller self); apply try_except_print_returns.
  - unfold ControllerManager_swipe_smooth.
    destruct (controller self); apply try_except_print_returns.
  - apply try_except_print_returns.
  - intros Hfail.
    unfold ControllerManager_swipe, Controller_swipe, try_except, device_call,
      print.
    rewrite Hfail. simpl. by rewrite <- app_assoc.
  - intros Hfail.
    rewrite (proj2 (IOSController_tap_run x y duration w)). by rewrite Hfail.
Qed.

Lemma driver_failures_are_contained_witness :
  trace (snd (ControllerManager_swipe ios_manager 1 2 3 4 (1 # 2)
                (mkWorld (fun _ => 0%Q) 0 (fun _ => 0) 0 (fun _ => None) 0
                   (fun _ => false) (fun _ => inl ImportError)
                   (fun _ => inl ImportError) (fun _ => [])
                   (fun _ => true) []))) =
  [EvDevice (DevSwipe 1 2 3 4 (1 # 2)); EvPrint (MsgSwipeFailed DriverError)].
Proof.
  apply (proj1 (proj2 (proj2 (proj2 (proj2 (proj2
           (driver_failures_are_contained ios_manager 1 2 3 4 (1 # 2) 20
              (mkWorld (fun _ => 0%Q) 0 (fun _ => 0) 0 (fun _ => None) 0
                 (fun _ => false) (fun _ => inl ImportError)
                 (fun _ => inl ImportError) (fun _ => [])
                 (fun _ => true) [])))))))).
  reflexivity.
Defined.

(** X13: [tap_random] with a negative radius raises [ValueError] before
    anything happens: no draw is consumed and nothing is sent to the
    driver. *)
Theorem tap_random_negative_radius :
  forall (self : ControllerManager) (x y radius : Z) (duration : Q) (w : World),
    radius < 0 ->
    tap_random self x y radius duration w = (inl ValueError, w).
Proof.
  intros self x y radius duration w Hneg.
  unfold tap_random, bind, random_randint.
  destruct (radius <? - radius) eqn:E; [reflexivity|].
  apply Z.ltb_ge in E. lia.
Qed.

Lemma tap_random_negative_radius_witness :
  tap_random android_manager 30 30 (-1) (5 # 100)
    (sample_world far_draws (fun _ => None)) =
  (inl ValueError, sample_world far_draws (fun _ => None)).
Proof.
  apply (tap_random_negative_radius android_manager 30 30 (-1) (5 # 100)
           (sample_world far_draws (fun _ => None))).
  lia.
Defined.

(** ** Several taps in a row *)




(** ** Construction of the manager *)

Lemma ascii_lower_idempotent (c : ascii) :
  ascii_lower (ascii_lower c) = ascii_lower c.
Proof.
  destruct c as [[] [] [] [] [] [] [] []]; reflexivity.
Qed.

Lemma str_lower_idempotent (s : string) : str_lower (str_lower s) = str_lower s.
Proof.
  induction s as [|c rest IH]; simpl; [reflexivity|].
  by rewrite ascii_lower_idempotent, IH.
Qed.

(** X15: the manager is chosen by the platform name without regard to the
    case of its letters: a name that lowers to "android" gives the Android
    controller, one that lowers to "ios" the iOS controller, both with a
    screen size of 0 by 0, and any other name raises [ValueError]; a name and
    its lowered form construct the same manager. *)
Theorem ControllerManager_init_by_lowered_platform :
  forall (platform_arg : string) (w : World),
    (str_lower platform_arg = "android" ->
     ControllerManager_init platform_arg w =
       (inr (mkControllerManager "android" AndroidController 0 0), w)) /\
    (str_lower platform_arg = "ios" ->
     ControllerManager_init platform_arg w =
       (inr (mkControllerManager "ios" IOSController 0 0), w)) /\
    (str_lower platform_arg <> "android" -> str_lower platform_arg <> "ios" ->
     ControllerManager_init platform_arg w = (inl ValueError, w)) /\
    ControllerManager_init (str_lower platform_arg) w =
      ControllerManager_init platform_arg w.
Proof.
  intros platform_arg w. unfold ControllerManager_init.
  split; [|split; [|split]].
  - intros ->. reflexivity.
  - intros ->. reflexivity.
  - intros Ha Hi. apply String.eqb_neq in Ha, Hi. by rewrite Ha, Hi.
  - by rewrite str_lower_idempotent.
Qed.

Lemma ControllerManager_init_by_lowered_platform_witness :
  ControllerManager_init "Android" (sample_world far_draws (fun _ => None)) =
    (inr (mkControllerManager "android" AndroidController 0 0),
     sample_world far_draws (fun _ => None)) /\
  ControllerManager_init "windows" (sample_world far_draws (fun _ => None)) =
    (inl ValueError, sample_world far_draws (fun _ => None)).
Proof.
  split.
  - apply (proj1 (ControllerManager_init_by_lowered_platform "Android"
                    (sample_world far_draws (fun _ => None)))).
    reflexivity.
  - apply (proj1 (proj2 (proj2 (ControllerManager_init_by_lowered_platform
                    "windows" (sample_world far_draws (fun _ => None))))));
      discriminate.
Defined.

(** ** Relative taps *)




(** ** Smooth swipes through the manager *)

(** X17: through the manager a smooth swipe depends on the platform: on iOS
    it is one straight swipe from the start to the end with the whole
    duration, and draws no random number; on Android, with a driver that
    accepts every call, it draws two random numbers and sends twenty
    swipes. *)
Theorem manager_swipe_smooth_by_platform :
  forall (self : ControllerManager) (start_x start_y end_x end_y : Z)
         (duration : Q) (w : World),
    let result :=
      ControllerManager_swipe_smooth self start_x start_y end_x end_y
        duration w in
    (controller self = IOSController ->
     exists added,
       trace (snd result) = (trace w ++ added)%list /\
       device_calls added = [DevSwipe start_x start_y end_x end_y duration] /\
       rng_pos (snd result) = rng_pos w) /\
    (controller self = AndroidController -> driver_accepts_all w ->
     exists added,
       trace (snd result) = (trace w ++ added)%list /\
       length (device_calls added) = 20%nat /\
       rng_pos (snd result) = S (S (rng_pos w))).
Proof.
  intros self sx sy ex ey duration w result. subst result.
  unfold ControllerManager_swipe_smooth. split; intros Hkind; rewrite Hkind.
  - unfold ControllerManager_swipe, Controller_swipe, try_except, device_call,
      print.
    destruct (driver_fails w _); simpl.
    + eexists [_; _]. rewrite <- app_assoc. simpl. auto.
    + eexists [_]. simpl. auto.
  - intros Hok.
    destruct (swipe_smooth_run sx sy ex ey duration 20 w ltac:(lia))
      as [_ Hrun].
    rewrite Hrun. unfold try_except.
    rewrite swipe_segments_accepted by (intros call; apply Hok).
    cbn [fst snd].
    eexists. split; [rewrite emit_all_trace; reflexivity|]. split.
    + rewrite device_calls_map_events, length_map, segments_length.
      unfold swipe_points. rewrite bezier_points_length. reflexivity.
    + rewrite emit_all_rng_pos. reflexivity.
Qed.

Lemma manager_swipe_smooth_by_platform_witness :
  exists added,
    trace (snd (ControllerManager_swipe_smooth ios_manager 0 0 100 0 (1 # 2)
                  (sample_world far_draws (fun _ => None)))) = added /\
    device_calls added = [DevSwipe 0 0 100 0 (1 # 2)].
Proof.
  destruct (proj1 (manager_swipe_smooth_by_platform ios_manager 0 0 100 0
                     (1 # 2) (sample_world far_draws (fun _ => None)))
              eq_refl) as [added [Htrace [Hcalls _]]].
  exists added. split; [exact Htrace | exact Hcalls].
Defined.

(** * Further properties of the detector module *)

(** ** From boxes to detections *)

Lemma parse_boxes_world (names : list string)
    (filter_classes : option (list string)) (boxes : list Box)
    (detections : list Detection) (w : World) :
  snd (parse_boxes names filter_classes boxes detections w) = w.
Proof.
  revert detections. induction boxes as [|box rest IH]; intros detections;
    simpl; [reflexivity|].
  destruct (py_getitem names (py_int (box_cls box))); [|reflexivity].
  destruct (filtered_out filter_classes s); apply IH.
Qed.

Lemma parse_boxes_in_vocabulary (names : list string)
    (filter_classes : option (list string)) (boxes : list Box)
    (detections : list Detection) (w : World) :
  Forall (box_in_vocabulary names) boxes ->
  fst (parse_boxes names filter_classes boxes detections w) =
  inr (detections ++ kept_detections names filter_classes boxes)%list.
Proof.
  intros Hall. revert detections.
  induction Hall as [|box rest Hbox _ IH]; intros detections; simpl.
  - by rewrite app_nil_r.
  - unfold box_in_vocabulary, box_class_id in *.
    destruct (py_getitem names (py_int (box_cls box))) as [cls|];
      [|congruence].
    destruct (filtered_out filter_classes cls); rewrite IH; simpl;
      [reflexivity | by rewrite <- app_assoc].
Qed.

Lemma parse_boxes_outside_vocabulary (names : list string)
    (filter_classes : option (list string)) (boxes : list Box)
    (detections : list Detection) (w : World) :
  Exists (fun box => ~ box_in_vocabulary names box) boxes ->
  fst (parse_boxes names filter_classes boxes detections w) = inl IndexError.
Proof.
  intros Hsome. revert detections.
  induction boxes as [|box rest IH]; intros detections;
    [inversion Hsome|].
  simpl. unfold box_in_vocabulary, box_class_id in *.
  destruct (py_getitem names (py_int (box_cls box))) as [cls|] eqn:E;
    [|reflexivity].
  assert (Exists (fun b => ~ py_getitem names (py_int (box_cls b)) <> None) rest)
    as Hrest.
  { inversion Hsome as [? ? Hhead | ? ? Htail]; subst; [|exact Htail].
    exfalso. apply Hhead. congruence. }
  destruct (filtered_out filter_classes cls); by apply IH.
Qed.

Lemma vocabulary_decidable (names : list string) (boxes : list Box) :
  Forall (box_in_vocabulary names) boxes \/
  Exists (fun box => ~ box_in_vocabulary names box) boxes.
Proof.
  induction boxes as [|box rest IH]; [left; constructor|].
  unfold box_in_vocabulary in *.
  destruct (py_getitem names (box_class_id box)) eqn:E.
  - destruct IH as [IH | IH]; [left | right].
    + constructor; [congruence | exact IH].
    + by apply Exists_cons_tl.
  - right. apply Exists_cons_hd. congruence.
Qed.

Lemma filtered_out_passes (filter_classes : option (list string)) (cls : string) :
  filtered_out filter_classes cls = false -> passes_filter filter_classes cls.
Proof.
  unfold filtered_out, passes_filter.
  destruct filter_classes as [[|c rest]|]; try done.
  intros H. apply negb_false_iff in H. apply existsb_exists in H as [c' [Hin Hc]].
  apply String.eqb_eq in Hc. by subst.
Qed.

Lemma kept_detections_sound (names : list string)
    (filter_classes : option (list string)) (boxes : list Box)
    (det : Detection) :
  In det (kept_detections names filter_classes boxes) ->
  exists box,
    In box boxes /\ detection_of_box names box det /\
    passes_filter filter_classes (class_name det).
Proof.
  unfold kept_detections. rewrite in_flat_map. intros [box [Hin Hdet]].
  exists box. split; [exact Hin|].
  destruct (py_getitem names (box_class_id box)) as [cls|] eqn:E; [|done].
  destruct (filtered_out filter_classes cls) eqn:Ef; [done|].
  destruct Hdet as [<- | []]. split.
  - exists cls. auto.
  - apply filtered_out_passes in Ef. unfold box_detection.
    by destruct (box_xyxy box) as [[[? ?] ?] ?].
Qed.

Lemma detect_ultralytics_run (self : YOLODetector) (image : Frame)
    (filter_classes : option (list string)) (w : World) :
  model self <> None -> model_type self = ultralytics ->
  detect self image filter_classes w =
  (fst (parse_boxes (class_names self) filter_classes (infer w image) []
          (emit (EvInfer image) w)),
   emit (EvInfer image) w).
Proof.
  intros Hmodel Htype. unfold detect.
  destruct (model self); [|congruence]. rewrite Htype.
  unfold _detect_ultralytics, bind, run_model.
  rewrite <- (parse_boxes_world (class_names self) filter_classes
                (infer w image) [] (emit (EvInfer image) w)) at 3.
  by destruct (parse_boxes _ _ _ _ _).
Qed.

(** X18: every detection returned by [detect] of a loaded ultralytics
    detector is built from one of the boxes of the model's answer for the
    image: its class name is the vocabulary's name for the box's class id,
    its centre is the centre of its box, and its class passes the filter when
    a non-empty filter is given.  The call runs the model once and does
    nothing else to the world. *)
Theorem detect_returns_detections_of_boxes :
  forall (self : YOLODetector) (image : Frame)
         (filter_classes : option (list string)) (w : World)
         (detections : list Detection) (w' : World),
    model self <> None -> model_type self = ultralytics ->
    detect self image filter_classes w = (inr detections, w') ->
    w' = emit (EvInfer image) w /\
    Forall (fun det =>
              (exists box,
                  In box (infer w image) /\
                  detection_of_box (class_names self) box det) /\
              passes_filter filter_classes (class_name det) /\
              center det = bbox_center (bbox det))
      detections.
Proof.
  intros self image filter_classes w detections w' Hmodel Htype Hdetect.
  rewrite (detect_ultralytics_run _ _ _ _ Hmodel Htype) in Hdetect.
  inversion Hdetect as [[Hfst Hsnd]]. split; [reflexivity|].
  destruct (vocabulary_decidable (class_names self) (infer w image))
    as [Hall | Hsome].
  - rewrite (parse_boxes_in_vocabulary _ _ _ _ _ Hall) in Hfst.
    inversion Hfst. simpl. apply List.Forall_forall. intros det Hin.
    apply kept_detections_sound in Hin as [box [Hbox [Hof Hpass]]].
    split; [eauto|]. split; [exact Hpass|].
    destruct Hof as [cls [_ ->]]. unfold box_detection.
    by destruct (box_xyxy box) as [[[? ?] ?] ?].
  - rewrite (parse_boxes_outside_vocabulary _ _ _ _ _ Hsome) in Hfst.
    discriminate.
Qed.

Lemma detect_returns_detections_of_boxes_witness :
  snd (detect sample_detector [] (Some ["enemy"])
         (seeing_world [box_start_button; box_enemy] (fun _ => None))) =
  emit (EvInfer [])
    (seeing_world [box_start_button; box_enemy] (fun _ => None)).
Proof.
  refine (proj1 (detect_returns_detections_of_boxes sample_detector []
                   (Some ["enemy"])
                   (seeing_world [box_start_button; box_enemy] (fun _ => None))
                   [det_enemy] _ _ eq_refl eq_refl)).
  discriminate.
Defined.

(** X19: when the vocabulary has a name for the class id of every box and
    no filter is given, [detect] returns exactly one detection per box, in
    the order of the boxes; an empty filter list is no filter at all and
    gives the same answer; with a filter the answer is the sublist of the
    unfiltered one whose classes are in the filter. *)
Theorem detect_keeps_one_detection_per_box :
  forall (self : YOLODetector) (image : Frame)
         (filter_classes : option (list string)) (w : World),
    model self <> None -> model_type self = ultralytics ->
    Forall (box_in_vocabulary (class_names self)) (infer w image) ->
    exists unfiltered,
      fst (detect self image None w) = inr unfiltered /\
      fst (detect self image (Some []) w) = inr unfiltered /\
      Forall2 (detection_of_box (class_names self)) (infer w image) unfiltered /\
      fst (detect self image filter_classes w) =
        inr (List.filter
               (fun det => negb (filtered_out filter_classes (class_name det)))
               unfiltered).
Proof.
  intros self image filter_classes w Hmodel Htype Hall.
  exists (kept_detections (class_names self) None (infer w image)).
  rewrite !(detect_ultralytics_run _ _ _ _ Hmodel Htype). simpl.
  rewrite !(parse_boxes_in_vocabulary _ _ _ _ _ Hall). simpl.
  split; [reflexivity|]. split; [reflexivity|]. split.
  - induction Hall as [|box rest Hbox _ IH]; simpl; [constructor|].
    unfold box_in_vocabulary in Hbox.
    destruct (py_getitem (class_names self) (box_class_id box)) as [cls|] eqn:E;
      [|congruence].
    simpl. constructor; [|exact IH]. exists cls. auto.
  - f_equal. induction Hall as [|box rest Hbox _ IH]; simpl; [reflexivity|].
    unfold box_in_vocabulary in Hbox.
    destruct (py_getitem (class_names self) (box_class_id box)) as [cls|] eqn:E;
      [|congruence].
    simpl.
    assert (class_name (box_detection box (box_class_id box) cls) = cls) as ->
      by (unfold box_detection; by destruct (box_xyxy box) as [[[? ?] ?] ?]).
    destruct (filtered_out filter_classes cls); simpl; by rewrite IH.
Qed.

Lemma detect_keeps_one_detection_per_box_witness :
  exists unfiltered,
    fst (detect sample_detector [] None
           (seeing_world [box_start_button; box_enemy] (fun _ => None))) =
      inr unfiltered /\
    Forall2 (detection_of_box (class_names sample_detector))
      [box_start_button; box_enemy] unfiltered.
Proof.
  destruct (detect_keeps_one_detection_per_box sample_detector [] None
              (seeing_world [box_start_button; box_enemy] (fun _ => None)))
    as [unfiltered [H1 [_ [H2 _]]]].
  - discriminate.
  - reflexivity.
  - repeat constructor; discriminate.
  - exists unfiltered. split; [exact H1 | exact H2].
Defined.

(** X20: when the model reports a box whose class id the vocabulary has no
    name for, [detect] raises [IndexError] and returns no detection at all,
    whatever the other boxes and whatever the filter. *)
Theorem detect_fails_outside_vocabulary :
  forall (self : YOLODetector) (image : Frame)
         (filter_classes : option (list string)) (w : World) (box : Box),
    model self <> None -> model_type self = ultralytics ->
    In box (infer w image) ->
    py_getitem (class_names self) (box_class_id box) = None ->
    detect self image filter_classes w =
      (inl IndexError, emit (EvInfer image) w).
Proof.
  intros self image filter_classes w box Hmodel Htype Hin Hnone.
  rewrite (detect_ultralytics_run _ _ _ _ Hmodel Htype). f_equal.
  apply parse_boxes_outside_vocabulary. apply List.Exists_exists.
  exists box. split; [exact Hin|]. unfold box_in_vocabulary. tauto.
Qed.

Lemma detect_fails_outside_vocabulary_witness :
  fst (detect sample_detector [] None
         (seeing_world [box_start_button; mkBox 7 (1 # 2) (0, 0, 1, 1)%Q]
            (fun _ => None))) = inl IndexError.
Proof.
  rewrite (detect_fails_outside_vocabulary sample_detector [] None
             (seeing_world [box_start_button; mkBox 7 (1 # 2) (0, 0, 1, 1)%Q]
                (fun _ => None))
             (mkBox 7 (1 # 2) (0, 0, 1, 1)%Q)).
  - reflexivity.
  - discriminate.
  - reflexivity.
  - simpl. auto.
  - reflexivity.
Defined.

(** ** What construction guarantees *)

Lemma YOLODetector_init_success (path : Path) (conf iou : Q) (gpu : bool)
    (w w' : World) (self : YOLODetector) :
  YOLODetector_init path conf iou gpu w = (inr self, w') ->
  model self <> None /\
  model_path self = path /\
  ((str_lower (path_suffix path) = ".pt" /\ model_type self = ultralytics /\
    exists m, load_ultralytics w (path_text path) = inr m /\
              model self = Some m /\ class_names self = model_names m) \/
   (str_lower (path_suffix path) = ".onnx" /\ model_type self = onnx /\
    class_names self = [])).
Proof.
  unfold YOLODetector_init, _detect_model_type, bind, ret, raise.
  destruct (String.eqb (str_lower (path_suffix path)) ".pt") eqn:Ept.
  - apply String.eqb_eq in Ept.
    unfold _load_model, bind, path_exists, _load_ultralytics_model, print, ret.
    simpl. destruct (fs_exists w (path_text path)); simpl; [|discriminate].
    destruct (load_ultralytics w (path_text path)) as [e | m] eqn:El;
      [discriminate|].
    intros H. inversion H. subst. simpl.
    split; [discriminate|]. split; [reflexivity|]. left. eauto 10.
  - destruct (String.eqb (str_lower (path_suffix path)) ".onnx") eqn:Eonnx;
      [|discriminate].
    apply String.eqb_eq in Eonnx.
    unfold _load_model, bind, path_exists, _load_onnx_model, print, ret.
    simpl. destruct (fs_exists w (path_text path)); simpl; [|discriminate].
    destruct (load_onnx w (path_text path)) as [e | m]; [discriminate|].
    intros H. inversion H. subst. simpl.
    split; [discriminate|]. split; [reflexivity|]. right. auto.
Qed.

(** X21: a detector constructed from an ".onnx" model is constructed with
    an empty vocabulary and cannot detect: every call of [detect] on it
    raises [NotImplementedError] without running the model. *)
Theorem onnx_detectors_cannot_detect :
  forall (path : Path) (conf iou : Q) (gpu : bool) (w w' : World)
         (self : YOLODetector),
    str_lower (path_suffix path) = ".onnx" ->
    YOLODetector_init path conf iou gpu w = (inr self, w') ->
    class_names self = [] /\
    forall (image : Frame) (filter_classes : option (list string))
           (w2 : World),
      detect self image filter_classes w2 = (inl NotImplementedError, w2).
Proof.
  intros path conf iou gpu w w' self Hsuffix Hinit.
  destruct (YOLODetector_init_success _ _ _ _ _ _ _ Hinit)
    as [Hmodel [_ [[Hpt _] | [_ [Htype Hnames]]]]].
  - rewrite Hsuffix in Hpt. discriminate.
  - split; [exact Hnames|]. intros image filter_classes w2.
    unfold detect. destruct (model self); [|congruence].
    by rewrite Htype.
Qed.

Lemma onnx_detectors_cannot_detect_witness :
  exists self w',
    YOLODetector_init (mkPath "models/best.onnx" ".onnx") (1 # 4) (1 # 2) false
      (seeing_world [] (fun _ => None)) = (inr self, w') /\
    detect self [] None w' = (inl NotImplementedError, w').
Proof.
  eexists _, _. split; [reflexivity|].
  apply (proj2 (onnx_detectors_cannot_detect
                  (mkPath "models/best.onnx" ".onnx") (1 # 4) (1 # 2) false
                  (seeing_world [] (fun _ => None)) _ _ eq_refl eq_refl)).
Defined.

(** X22: a detector that was constructed successfully has a model: [detect]
    on it never raises the [RuntimeError] of the unloaded detector.  For a
    ".pt" model its vocabulary is the model's list of names, and [detect]
    either returns detections or raises [IndexError]. *)
Theorem constructed_detectors_are_loaded :
  forall (path : Path) (conf iou : Q) (gpu : bool) (w w' : World)
         (self : YOLODetector) (image : Frame)
         (filter_classes : option (list string)) (w2 : World),
    YOLODetector_init path conf iou gpu w = (inr self, w') ->
    model self <> None /\
    fst (detect self image filter_classes w2) <> inl RuntimeError /\
    (str_lower (path_suffix path) = ".pt" ->
     (exists m, load_ultralytics w (path_text path) = inr m /\
                class_names self = model_names m) /\
     (fst (detect self image filter_classes w2) = inl IndexError \/
      exists detections,
        fst (detect self image filter_classes w2) = inr detections)).
Proof.
  intros path conf iou gpu w w' self image filter_classes w2 Hinit.
  destruct (YOLODetector_init_success _ _ _ _ _ _ _ Hinit)
    as [Hmodel [_ Hkind]].
  split; [exact Hmodel|].
  assert (model_type self = ultralytics ->
          fst (detect self image filter_classes w2) = inl IndexError \/
          exists detections,
            fst (detect self image filter_classes w2) = inr detections)
    as Hultra.
  { intros Htype. rewrite (detect_ultralytics_run _ _ _ _ Hmodel Htype). simpl.
    destruct (vocabulary_decidable (class_names self) (infer w2 image))
      as [Hall | Hsome].
    - right. rewrite (parse_boxes_in_vocabulary _ _ _ _ _ Hall). eauto.
    - left. by apply parse_boxes_outside_vocabulary. }
  destruct Hkind as [[Hpt [Htype [m [Hload [_ Hnames]]]]] | [Honnx [Htype _]]].
  - split.
    + destruct (Hultra Htype) as [-> | [detections ->]]; discriminate.
    + intros _. split; [eauto | auto].
  - split.
    + unfold detect. destruct (model self); [|congruence].
      rewrite Htype. discriminate.
    + intros Hpt. rewrite Honnx in Hpt. discriminate.
Qed.

Lemma constructed_detectors_are_loaded_witness :
  exists self w',
    YOLODetector_init (mkPath "models/best.pt" ".pt") (1 # 4) (1 # 2) false
      (seeing_world [box_enemy] (fun _ => None)) = (inr self, w') /\
    fst (detect self [] None w') <> inl RuntimeError.
Proof.
  eexists _, _. split; [reflexivity|].
  apply (proj1 (proj2 (constructed_detectors_are_loaded
                  (mkPath "models/best.pt" ".pt") (1 # 4) (1 # 2) false
                  (seeing_world [box_enemy] (fun _ => None)) _ _ [] None _
                  eq_refl))).
Defined.

(** ** The nearest detection *)




(** ** Colours *)

(** X24: [_get_class_color] has a colour for every integer class id, also a
    negative one: the index never leaves the table of six colours, and class
    ids that differ by a multiple of six share a colour. *)
Theorem class_color_is_total_and_periodic :
  forall (class_id k : Z),
    (exists color,
        _get_class_color class_id = Some color /\ In color class_colors) /\
    _get_class_color (class_id + 6 * k) = _get_class_color class_id.
Proof.
  intros class_id k. unfold _get_class_color.
  change (Z.of_nat (length class_colors)) with 6. split.
  - pose proof (Z.mod_pos_bound class_id 6 ltac:(lia)) as Hr.
    assert (class_id mod 6 = 0 \/ class_id mod 6 = 1 \/ class_id mod 6 = 2 \/
            class_id mod 6 = 3 \/ class_id mod 6 = 4 \/ class_id mod 6 = 5)
      as Hcases by lia.
    destruct Hcases as [-> | [-> | [-> | [-> | [-> | ->]]]]];
      eexists; (split; [reflexivity | simpl; tauto]).
  - by rewrite (Z.mul_comm 6 k), Z_mod_plus_full.
Qed.

(** ** The tracker *)

Lemma track_loop_spec (detections : list Detection) (tracked : gmap Z Detection)
    (next : Z) :
  snd (track_loop detections tracked next) =
    next + Z.of_nat (length detections) /\
  forall id,
    fst (track_loop detections tracked next) !! id =
    if (next <=? id) && (id <? next + Z.of_nat (length detections))
    then nth_error detections (Z.to_nat (id - next))
    else tracked !! id.
Proof.
  revert tracked next. induction detections as [|det rest IH];
    intros tracked next.
  - cbn [track_loop fst snd length]. split; [lia|]. intros id.
    replace ((next <=? id) && (id <? next + Z.of_nat 0)) with false;
      [reflexivity|].
    symmetry. apply andb_false_iff.
    destruct (Z.le_gt_cases next id);
      [right; apply Z.ltb_ge; lia | left; apply Z.leb_gt; lia].
  - cbn [track_loop]. destruct (IH (<[next := det]> tracked) (next + 1))
      as [Hnext Hlookup].
    split; [rewrite Hnext; cbn [length]; lia|].
    intros id. rewrite Hlookup. cbn [length].
    destruct (Z.eq_dec id next) as [-> | Hne].
    + replace (next + 1 <=? next) with false by (symmetry; apply Z.leb_gt; lia).
      replace (next <=? next) with true by (symmetry; apply Z.leb_le; lia).
      replace (next <? next + Z.of_nat (S (length rest))) with true
        by (symmetry; apply Z.ltb_lt; lia).
      simpl. rewrite lookup_insert_eq.
      by replace (Z.to_nat (next - next)) with 0%nat by lia.
    + rewrite lookup_insert_ne by congruence.
      destruct (next + 1 <=? id) eqn:E1.
      * apply Z.leb_le in E1.
        replace (next <=? id) with true by (symmetry; apply Z.leb_le; lia).
        replace (id <? next + 1 + Z.of_nat (length rest))
          with (id <? next + Z.of_nat (S (length rest)))
          by (f_equal; lia).
        simpl. destruct (id <? _); [|reflexivity].
        replace (Z.to_nat (id - next)) with (S (Z.to_nat (id - (next + 1))))
          by lia.
        reflexivity.
      * apply Z.leb_gt in E1.
        replace (next <=? id) with false by (symmetry; apply Z.leb_gt; lia).
        reflexivity.
Qed.

(** X25: [DetectionTracker.update] gives the detections of a frame the
    consecutive ids starting at [next_id], in order, and nothing else, and
    advances [next_id] by their number, so that the ids given out by
    successive calls never overlap. *)
Theorem tracker_gives_fresh_consecutive_ids :
  forall (self : DetectionTracker) (detections more : list Detection),
    let first := DetectionTracker_update self detections in
    let second := DetectionTracker_update (snd first) more in
    next_id (snd first) = next_id self + Z.of_nat (length detections) /\
    (forall k : nat,
        fst first !! (next_id self + Z.of_nat k) = nth_error detections k) /\
    (forall id,
        id < next_id self \/ next_id (snd first) <= id ->
        fst first !! id = None) /\
    (forall id, is_Some (fst first !! id) -> fst second !! id = None).
Proof.
  intros self detections more first second.
  assert (forall (t : DetectionTracker) (l : list Detection),
             next_id (snd (DetectionTracker_update t l)) =
               next_id t + Z.of_nat (length l) /\
             forall id,
               fst (DetectionTracker_update t l) !! id =
               if (next_id t <=? id) && (id <? next_id t + Z.of_nat (length l))
               then nth_error l (Z.to_nat (id - next_id t))
               else None) as Hspec.
  { intros t l. unfold DetectionTracker_update.
    destruct (track_loop_spec l ∅ (next_id t)) as [Hn Hl].
    destruct (track_loop l ∅ (next_id t)) as [tracked next]. simpl in *.
    split; [exact Hn|]. intros id. rewrite Hl.
    destruct (_ && _); [reflexivity | apply lookup_empty]. }
  destruct (Hspec self detections) as [Hnext Hlookup].
  destruct (Hspec (snd first) more) as [_ Hlookup2].
  fold first in Hnext, Hlookup. fold second in Hlookup2.
  split; [exact Hnext|]. split; [|split].
  - intros k. rewrite Hlookup.
    destruct (next_id self <=? next_id self + Z.of_nat k) eqn:E1;
      [|apply Z.leb_gt in E1; lia].
    destruct (next_id self + Z.of_nat k <?
              next_id self + Z.of_nat (length detections)) eqn:E2; simpl.
    + f_equal. lia.
    + apply Z.ltb_ge in E2. symmetry. apply nth_error_None. lia.
  - intros id Hout. rewrite Hlookup.
    destruct (next_id self <=? id) eqn:E1; [|reflexivity].
    destruct (id <? next_id self + Z.of_nat (length detections)) eqn:E2;
      [|reflexivity].
    apply Z.leb_le in E1. apply Z.ltb_lt in E2. lia.
  - intros id [det Hdet]. rewrite Hlookup in Hdet. rewrite Hlookup2.
    destruct (next_id self <=? id) eqn:E1; [|discriminate].
    destruct (id <? next_id self + Z.of_nat (length detections)) eqn:E2;
      [|discriminate].
    apply Z.ltb_lt in E2.
    destruct (next_id (snd first) <=? id) eqn:E3; [|reflexivity].
    apply Z.leb_le in E3. lia.
Qed.

Lemma tracker_gives_fresh_consecutive_ids_witness :
  fst (DetectionTracker_update (DetectionTracker_init 30)
         [det_start_button; det_enemy]) !! (-1) = None.
Proof.
  apply (proj1 (proj2 (proj2 (tracker_gives_fresh_consecutive_ids
                  (DetectionTracker_init 30) [det_start_button; det_enemy] [])))).
  left. simpl. lia.
Defined.

(** * Further properties of the orchestrator *)

(** ** Executing any decision *)




(** X27: a decision that lacks what its action needs is dropped in silence:
    a tap without x or without y, and a swipe without one of its four
    parameters, change nothing, like the wait decision; a decision whose
    action is none of tap, swipe and wait, or that has no action at all, only
    logs the warning of the unknown action. *)
Theorem _execute_action_drops_incomplete_decisions :
  forall (bot : GameBot) (decision : Decision) (w : World),
    let params : gmap string Z := default ∅ (d_params decision) in
    (d_action decision = Some "tap" ->
     params !! "x" = None \/ params !! "y" = None ->
     _execute_action bot decision w = (inr tt, w)) /\
    (d_action decision = Some "swipe" ->
     params !! "start_x" = None \/ params !! "start_y" = None \/
     params !! "end_x" = None \/ params !! "end_y" = None ->
     _execute_action bot decision w = (inr tt, w)) /\
    (d_action decision = Some "wait" ->
     _execute_action bot decision w = (inr tt, w)) /\
    (d_action decision <> Some "tap" -> d_action decision <> Some "swipe" ->
     d_action decision <> Some "wait" ->
     _execute_action bot decision w =
       (inr tt, emit (EvLog WARNING (MsgUnknownAction (d_action decision))) w)).
Proof.
  intros bot decision w params. subst params. unfold _execute_action.
  split; [|split; [|split]].
  - intros -> Hmissing. change (action_is (Some "tap") "tap") with true.
    cbn iota.
    destruct (default ∅ (d_params decision) !! "x");
      destruct (default ∅ (d_params decision) !! "y");
      try reflexivity.
    destruct Hmissing; discriminate.
  - intros -> Hmissing. change (action_is (Some "swipe") "tap") with false.
    change (action_is (Some "swipe") "swipe") with true. cbn iota.
    destruct (default ∅ (d_params decision) !! "start_x");
      destruct (default ∅ (d_params decision) !! "start_y");
      destruct (default ∅ (d_params decision) !! "end_x");
      destruct (default ∅ (d_params decision) !! "end_y");
      try reflexivity.
    destruct Hmissing as [H | [H | [H | H]]]; discriminate.
  - intros ->. reflexivity.
  - intros Htap Hswipe Hwait.
    assert (forall s, d_action decision <> Some s ->
                      action_is (d_action decision) s = false) as Hno.
    { intros s Hs. unfold action_is. destruct (d_action decision) as [a|];
        [|reflexivity].
      apply String.eqb_neq. congruence. }
    by rewrite (Hno _ Htap), (Hno _ Hswipe), (Hno _ Hwait).
Qed.

Lemma _execute_action_drops_incomplete_decisions_witness :
  _execute_action sample_bot (mkDecision (Some "tap") (Some (<["x" := 5]> ∅)))
    (sample_world far_draws (fun _ => None)) =
    (inr tt, sample_world far_draws (fun _ => None)) /\
  _execute_action sample_bot (mkDecision None None)
    (sample_world far_draws (fun _ => None)) =
    (inr tt, emit (EvLog WARNING (MsgUnknownAction None))
               (sample_world far_draws (fun _ => None))).
Proof.
  split.
  - apply (proj1 (_execute_action_drops_incomplete_decisions sample_bot
                    (mkDecision (Some "tap") (Some (<["x" := 5]> ∅)))
                    (sample_world far_draws (fun _ => None))));
      [reflexivity | right; reflexivity].
  - apply (proj2 (proj2 (proj2 (_execute_action_drops_incomplete_decisions
                    sample_bot (mkDecision None None)
                    (sample_world far_draws (fun _ => None))))));
      discriminate.
Defined.

(** ** Passes of the loop *)

Lemma bind_inr (A B : Type) (m : M A) (k : A -> M B) (w w' : World) (b : B) :
  bind m k w = (inr b, w') ->
  exists a w1, m w = (inr a, w1) /\ k a w1 = (inr b, w').
Proof.
  unfold bind. destruct (m w) as [[e | a] w1]; [discriminate|]. eauto.
Qed.

Lemma frames_untouched_refl (w : World) : frames_untouched w w.
Proof. split; reflexivity. Qed.

Lemma frames_untouched_trans (w1 w2 w3 : World) :
  frames_untouched w1 w2 -> frames_untouched w2 w3 -> frames_untouched w1 w3.
Proof. intros [H1 H2] [H3 H4]. split; congruence. Qed.

Lemma detect_world (self : YOLODetector) (image : Frame)
    (filter_classes : option (list string)) (w : World) :
  snd (detect self image filter_classes w) = w \/
  snd (detect self image filter_classes w) = emit (EvInfer image) w.
Proof.
  unfold detect. destruct (model self); [|left; reflexivity].
  destruct (model_type self); [|left; reflexivity].
  right. unfold _detect_ultralytics, bind, run_model.
  rewrite <- (parse_boxes_world (class_names self) filter_classes
                (infer w image) [] (emit (EvInfer image) w)) at 2.
  by destruct (parse_boxes _ _ _ _ _).
Qed.

Lemma detect_frames (self : YOLODetector) (image : Frame)
    (filter_classes : option (list string)) (w : World) :
  frames_untouched w (snd (detect self image filter_classes w)).
Proof.
  destruct (detect_world self image filter_classes w) as [-> | ->];
    split; reflexivity.
Qed.

Lemma tap_random_frames (self : ControllerManager) (x y radius : Z)
    (duration : Q) (w : World) :
  frames_untouched w (snd (tap_random self x y radius duration w)).
Proof.
  unfold tap_random, bind, random_randint, ControllerManager_tap,
    AndroidController_tap, IOSController_tap, try_except, bind, random_randint,
    device_call, time_sleep, print.
  destruct (radius <? - radius); [split; reflexivity|]. simpl.
  destruct (controller self); simpl;
    destruct (driver_fails w _); split; reflexivity.
Qed.

Lemma _execute_action_frames (bot : GameBot) (decision : Decision) (w : World) :
  frames_untouched w (snd (_execute_action bot decision w)).
Proof.
  unfold _execute_action.
  destruct (action_is (d_action decision) "tap").
  { destruct (default ∅ (d_params decision) !! "x") as [x|];
      [|apply frames_untouched_refl].
    destruct (default ∅ (d_params decision) !! "y") as [y|];
      [|apply frames_untouched_refl].
    unfold bind.
    pose proof (tap_random_frames (bot_controller bot) x y default_radius
                  default_tap_duration w) as Htap.
    destruct (tap_random _ _ _ _ _ _) as [[e | []] w1]; [exact Htap|].
    exact Htap. }
  destruct (action_is (d_action decision) "swipe").
  { destruct (default ∅ (d_params decision) !! "start_x") as [sx|];
      [|apply frames_untouched_refl].
    destruct (default ∅ (d_params decision) !! "start_y") as [sy|];
      [|apply frames_untouched_refl].
    destruct (default ∅ (d_params decision) !! "end_x") as [ex|];
      [|apply frames_untouched_refl].
    destruct (default ∅ (d_params decision) !! "end_y") as [ey|];
      [|apply frames_untouched_refl].
    unfold bind, ControllerManager_swipe, Controller_swipe, try_except,
      device_call, print, logger.
    destruct (driver_fails w _); split; reflexivity. }
  destruct (action_is (d_action decision) "wait");
    [apply frames_untouched_refl | split; reflexivity].
Qed.

Lemma when_inr (b : bool) (m : M unit) (w w' : World) (a : unit) :
  when b m w = (inr a, w') ->
  (b = true /\ m w = (inr a, w')) \/ (b = false /\ w' = w).
Proof.
  destruct b; simpl; [auto|]. unfold ret. intros H. inversion H. auto.
Qed.

Lemma when_frames (b : bool) (m : M unit) (w w' : World) (a : unit) :
  (forall w0, frames_untouched w0 (snd (m w0))) ->
  when b m w = (inr a, w') -> frames_untouched w w'.
Proof.
  intros Hm Hwhen. apply when_inr in Hwhen as [[_ Hrun] | [_ ->]].
  - specialize (Hm w). by rewrite Hrun in Hm.
  - apply frames_untouched_refl.
Qed.

Lemma emit_event_frames (e : Event) (w : World) :
  frames_untouched w (snd (emit_event e w)).
Proof. split; reflexivity. Qed.

Lemma logger_frames (lvl : Level) (m : Message) (w : World) :
  frames_untouched w (snd (logger lvl m w)).
Proof. split; reflexivity. Qed.

Lemma time_sleep_frames (seconds : Q) (w : World) :
  frames_untouched w (snd (time_sleep seconds w)).
Proof. split; reflexivity. Qed.

Lemma run_iteration_completed (frame_time : Q) (bot : GameBot) (last_time : Q)
    (w : World) (bot' : GameBot) (last_time' : Q) (w' : World) :
  run_iteration frame_time bot last_time w = (inr (bot', last_time'), w') ->
  is_running bot' = is_running bot /\
  runtime bot' = runtime bot /\
  bot_detector bot' = bot_detector bot /\
  bot_controller bot' = bot_controller bot /\
  frames w' = frames w /\
  frame_pos w' = S (frame_pos w) /\
  match frames w (frame_pos w) with
  | None => bot' = bot /\ last_time' = last_time
  | Some frame =>
      bot_frame_count bot' = bot_frame_count bot + 1 /\
      frame_count (bot_strategy bot') = frame_count (bot_strategy bot) + 1
  end.
Proof.
  unfold run_iteration. intros Hrun.
  apply bind_inr in Hrun as [loop_start [w0 [Hclock Hrun]]].
  unfold time_time in Hclock. inversion Hclock. subst. clear Hclock.
  apply bind_inr in Hrun as [frame [w1 [Hframe Hrun]]].
  unfold get_frame in Hframe. inversion Hframe. subst. clear Hframe.
  cbn [frames frame_pos advance_clock] in *.
  destruct (frames w (frame_pos w)) as [frame|].
  - apply bind_inr in Hrun as [detections [w2 [Hdetect Hrun]]].
    pose proof (detect_frames (bot_detector bot) frame None
                  (advance_frames (advance_clock w))) as [Hf2 Hp2].
    rewrite Hdetect in Hf2, Hp2. cbn [snd] in Hf2, Hp2.
    apply bind_inr in Hrun as [now [w3 [Hnow Hrun]]].
    unfold time_time in Hnow. inversion Hnow. subst now w3. clear Hnow.
    pose proof (update_cases Frame (bot_strategy bot)
                  (clock w2 (clock_pos w2)) frame detections) as [Hcount _].
    destruct (update (bot_strategy bot) (clock w2 (clock_pos w2)) frame
                detections) as [decision strategy]. cbn [snd] in Hcount.
    apply bind_inr in Hrun as [[] [w4 [Hact Hrun]]].
    assert (frames_untouched (advance_clock w2) w4) as [Hf4 Hp4].
    { destruct decision as [d|].
      - apply (when_frames _ _ _ _ _ (_execute_action_frames _ d) Hact).
      - unfold ret in Hact. inversion Hact. apply frames_untouched_refl. }
    apply bind_inr in Hrun as [[] [w5 [Hviz Hrun]]].
    assert (frames_untouched w4 w5) as [Hf5 Hp5].
    { apply (when_frames _ _ _ _ _ (emit_event_frames _) Hviz). }
    apply bind_inr in Hrun as [[] [w6 [Hshot Hrun]]].
    assert (frames_untouched w5 w6) as [Hf6 Hp6].
    { destruct (save_screenshots _).
      - destruct (_ =? 0); [discriminate|].
        apply (when_frames _ _ _ _ _ (emit_event_frames _) Hshot).
      - unfold ret in Hshot. inversion Hshot. apply frames_untouched_refl. }
    apply bind_inr in Hrun as [current_time [w7 [Hnow Hrun]]].
    unfold time_time in Hnow. inversion Hnow. subst current_time w7. clear Hnow.
    destruct (Qeq_bool _ 0); [discriminate|].
    apply bind_inr in Hrun as [[] [w8 [Hlog Hrun]]].
    assert (frames_untouched (advance_clock w6) w8) as [Hf8 Hp8].
    { apply (when_frames _ _ _ _ _ (logger_frames _ _) Hlog). }
    apply bind_inr in Hrun as [loop_end [w9 [Hnow Hrun]]].
    unfold time_time in Hnow. inversion Hnow. subst loop_end w9. clear Hnow.
    apply bind_inr in Hrun as [[] [w10 [Hsleep Hrun]]].
    assert (frames_untouched (advance_clock w8) w10) as [Hf10 Hp10].
    { apply (when_frames _ _ _ _ _ (time_sleep_frames _) Hsleep). }
    unfold ret in Hrun. inversion Hrun. subst. clear Hrun.
    cbn [frames frame_pos advance_clock advance_frames] in *.
    cbn. repeat split; try congruence.
  - apply bind_inr in Hrun as [[] [w2 [Hlog Hrun]]].
    unfold logger in Hlog. inversion Hlog. subst. clear Hlog.
    apply bind_inr in Hrun as [[] [w3 [Hsleep Hrun]]].
    unfold time_sleep in Hsleep. inversion Hsleep. subst. clear Hsleep.
    unfold ret in Hrun. inversion Hrun. subst. repeat split; reflexivity.
Qed.

(** X28: a pass of the loop that completes leaves the running flag, the
    runtime settings, the detector and the controller of the bot as they
    were and takes exactly one answer from the frame source.  If that answer
    was no frame, the bot and the loop's timestamp are unchanged; if it was a
    frame, the bot's frame counter and the policy's frame counter have both
    advanced by exactly one. *)
Theorem completed_pass_advances_one_frame :
  forall (frame_time : Q) (bot : GameBot) (last_time : Q) (w : World)
         (bot' : GameBot) (last_time' : Q) (w' : World),
    run_iteration frame_time bot last_time w = (inr (bot', last_time'), w') ->
    (is_running bot' = is_running bot /\ runtime bot' = runtime bot /\
     bot_detector bot' = bot_detector bot /\
     bot_controller bot' = bot_controller bot) /\
    (frames w' = frames w /\ frame_pos w' = S (frame_pos w)) /\
    (frames w (frame_pos w) = None -> bot' = bot /\ last_time' = last_time) /\
    (forall frame,
        frames w (frame_pos w) = Some frame ->
        bot_frame_count bot' = bot_frame_count bot + 1 /\
        frame_count (bot_strategy bot') =
          frame_count (bot_strategy bot) + 1).
Proof.
  intros frame_time bot last_time w bot' last_time' w' Hrun.
  destruct (run_iteration_completed _ _ _ _ _ _ _ Hrun)
    as [H1 [H2 [H3 [H4 [H5 [H6 H7]]]]]].
  split; [auto|]. split; [auto|]. split.
  - intros Hnone. by rewrite Hnone in H7.
  - intros frame Hsome. by rewrite Hsome in H7.
Qed.

Lemma completed_pass_advances_one_frame_witness :
  exists bot' last_time' w',
    run_iteration (1 # 30) sample_bot 0
      (seeing_world [box_enemy] (fun _ => Some [])) =
      (inr (bot', last_time'), w') /\
    bot_frame_count bot' = 1 /\
    frame_count (bot_strategy bot') = 1.
Proof.
  destruct (run_iteration (1 # 30) sample_bot 0
              (seeing_world [box_enemy] (fun _ => Some [])))
    as [[e | [bot' last_time']] w'] eqn:Hpass;
    [vm_compute in Hpass; discriminate|].
  exists bot', last_time', w'. split; [reflexivity|].
  apply (proj2 (proj2 (proj2 (completed_pass_advances_one_frame (1 # 30)
           sample_bot 0 (seeing_world [box_enemy] (fun _ => Some []))
           _ _ _ Hpass))) [] eq_refl).
Defined.

Lemma frames_fetched_step (w w1 : World) (fuel : nat) :
  frames w1 = frames w -> frame_pos w1 = S (frame_pos w) ->
  frames_fetched w (S fuel) =
  ((match frames w (frame_pos w) with Some _ => 1 | None => 0 end)
   + frames_fetched w1 fuel)%nat.
Proof.
  intros Hf Hp. unfold frames_fetched. rewrite Hf, Hp. simpl.
  by destruct (frames w (frame_pos w)).
Qed.

(** X29: the loop never stops itself: after any number of passes that all
    complete, the running flag is still set, the frame source has been asked
    once per pass, and the bot's frame counter has advanced by exactly the
    number of frames the source delivered, the failed fetches not counted. *)
Theorem completed_loop_counts_fetched_frames :
  forall (fuel : nat) (frame_time : Q) (bot : GameBot) (last_time : Q)
         (w : World) (bot' : GameBot) (last_time' : Q) (w' : World),
    is_running bot = true ->
    run_loop fuel frame_time bot last_time w = (inr (bot', last_time'), w') ->
    is_running bot' = true /\
    frame_pos w' = (frame_pos w + fuel)%nat /\
    bot_frame_count bot' =
      bot_frame_count bot + Z.of_nat (frames_fetched w fuel).
Proof.
  induction fuel as [|fuel IH];
    intros frame_time bot last_time w bot' last_time' w' Hon Hloop.
  - simpl in Hloop. unfold ret in Hloop. inversion Hloop. subst.
    unfold frames_fetched. simpl. repeat split; [exact Hon | lia | lia].
  - cbn [run_loop] in Hloop. rewrite Hon in Hloop.
    apply bind_inr in Hloop as [[bot1 last1] [w1 [Hpass Hloop]]].
    destruct (run_iteration_completed _ _ _ _ _ _ _ Hpass)
      as [Hrun1 [_ [_ [_ [Hf [Hp Hcount]]]]]].
    cbn [fst snd] in Hloop.
    destruct (IH frame_time bot1 last1 w1 bot' last_time' w'
                ltac:(congruence) Hloop) as [Hon' [Hp' Hc']].
    split; [exact Hon'|]. split; [lia|].
    rewrite (frames_fetched_step w w1 fuel Hf Hp), Hc'.
    destruct (frames w (frame_pos w)).
    + destruct Hcount as [-> _]. lia.
    + destruct Hcount as [-> _]. lia.
Qed.

Lemma completed_loop_counts_fetched_frames_witness :
  exists bot' last_time' w',
    run_loop 2 (1 # 30) sample_bot 0 (sample_world far_draws (fun _ => None)) =
      (inr (bot', last_time'), w') /\
    is_running bot' = true /\ frame_pos w' = 2%nat /\ bot_frame_count bot' = 0.
Proof.
  destruct (run_loop 2 (1 # 30) sample_bot 0
              (sample_world far_draws (fun _ => None)))
    as [[e | [bot' last_time']] w'] eqn:Hloop;
    [vm_compute in Hloop; discriminate|].
  exists bot', last_time', w'. split; [reflexivity|].
  apply (completed_loop_counts_fetched_frames 2 (1 # 30) sample_bot 0
           (sample_world far_draws (fun _ => None)) _ _ _ eq_refl Hloop).
Defined.

(** X30: an exception of the detector ends the loop: when [detect] raises
    on the frame of a pass, the pass and the loop raise the same exception,
    and nothing has been sent to the driver in that pass.  In particular a
    bot whose detector was built from an ".onnx" model stops with
    [NotImplementedError] at the first frame it fetches. *)
Theorem detector_failure_ends_the_loop :
  forall (fuel : nat) (frame_time : Q) (bot : GameBot) (last_time : Q)
         (w : World) (frame : Frame),
    is_running bot = true ->
    frames w (frame_pos w) = Some frame ->
    (forall e,
        fst (detect (bot_detector bot) frame None
               (advance_frames (advance_clock w))) = inl e ->
        fst (run_loop (S fuel) frame_time bot last_time w) = inl e /\
        device_calls (trace (snd (run_loop (S fuel) frame_time bot last_time w)))
          = device_calls (trace w)) /\
    (model_type (bot_detector bot) = onnx ->
     model (bot_detector bot) <> None ->
     run_loop (S fuel) frame_time bot last_time w =
       (inl NotImplementedError, advance_frames (advance_clock w))).
Proof.
  intros fuel frame_time bot last_time w frame Hon Hframe.
  assert (forall r w2,
             detect (bot_detector bot) frame None
               (advance_frames (advance_clock w)) = (inl r, w2) ->
             run_loop (S fuel) frame_time bot last_time w = (inl r, w2))
    as Hescape.
  { intros r w2 Hdetect. cbn [run_loop]. rewrite Hon.
    unfold bind at 1. unfold run_iteration, bind, time_time, get_frame.
    cbn [frames frame_pos advance_clock]. rewrite Hframe, Hdetect.
    reflexivity. }
  split.
  - intros e He.
    pose proof (detect_world (bot_detector bot) frame None
                  (advance_frames (advance_clock w))) as Hworld.
    destruct (detect (bot_detector bot) frame None
                (advance_frames (advance_clock w))) as [r w2] eqn:Hdetect.
    cbn [fst snd] in He, Hworld. subst r.
    rewrite (Hescape e w2 eq_refl). cbn [fst snd]. split; [reflexivity|].
    destruct Hworld as [-> | ->]; cbn [trace emit advance_frames advance_clock];
      [reflexivity|].
    rewrite device_calls_app. simpl. by rewrite app_nil_r.
  - intros Htype Hmodel. apply Hescape. unfold detect.
    destruct (model (bot_detector bot)); [|congruence]. by rewrite Htype.
Qed.

Lemma detector_failure_ends_the_loop_witness :
  run_loop 5 (1 # 30) onnx_bot 0 (seeing_world [box_enemy] (fun _ => Some [])) =
  (inl NotImplementedError,
   advance_frames (advance_clock
     (seeing_world [box_enemy] (fun _ => Some [])))).
Proof.
  apply (proj2 (detector_failure_ends_the_loop 4 (1 # 30) onnx_bot 0
                  (seeing_world [box_enemy] (fun _ => Some [])) []
                  eq_refl eq_refl)).
  - reflexivity.
  - discriminate.
Defined.
